(** * twitter_extractor.py: fetch-with-fallback and response-to-record extraction

    A shallow embedding of [TwitterExtractor] (script/twitter_extractor.py):
    the JSON documents the two GraphQL endpoints answer with, the Python
    operations the extractor applies to them ([dict.get], subscripting,
    [in], [for], truthiness, [try]/[except Exception]), the two
    shape-specific locators, the object-to-record mapping, and the two entry
    points [fetch_and_extract] and [extract_from_file].

    Console output ([print]) is not modelled.  Network reads and file writes
    are recorded as events of a trace. *)

From Stdlib Require Import String Ascii List ZArith Bool Lia.
Import ListNotations.
Local Open Scope string_scope.
Local Open Scope list_scope.
Set Warnings "-register-all".

(** ** Python values as [json.load] and [response.json()] build them *)

Module Py.

(** A Python float, as far as the extractor can observe it: it is only
    tested for truth and copied. *)
Inductive pyfloat : Type :=
| FFinite (mantissa exponent : Z)
| FInfinity (negative : bool)
| FNaN.

(** [JObj] is a [dict] with [str] keys, kept in insertion order; a loaded
    dict binds a key once, and [lookup] reads the binding of a key. *)
Inductive json : Type :=
| JNull
| JBool (b : bool)
| JInt (n : Z)
| JFloat (f : pyfloat)
| JStr (s : string)
| JArr (items : list json)
| JObj (fields : list (string * json)).

(** The exceptions the extractor's operations can raise; all three are
    subclasses of [Exception]. *)
Inductive exn : Type :=
| KeyError (key : string)
| TypeError
| AttributeError.

Inductive result (A : Type) : Type :=
| Ok (a : A)
| Raise (e : exn).
Arguments Ok {A} a.
Arguments Raise {A} e.

Definition bind {A B : Type} (m : result A) (k : A -> result B) : result B :=
  match m with
  | Ok a => k a
  | Raise e => Raise e
  end.

Fixpoint lookup (key : string) (fields : list (string * json)) : option json :=
  match fields with
  | [] => None
  | (k, v) :: rest => if String.eqb k key then Some v else lookup key rest
  end.

(** [d.get(key, default)]: only a dict has the method. *)
Definition get (d : json) (key : string) (default : json) : result json :=
  match d with
  | JObj fields =>
      match lookup key fields with
      | Some v => Ok v
      | None => Ok default
      end
  | _ => Raise AttributeError
  end.

(** [d[key]] with a [str] key: [KeyError] on a dict without the key,
    [TypeError] on every other value (lists and strings want an integer
    index, the rest is not subscriptable). *)
Definition index (d : json) (key : string) : result json :=
  match d with
  | JObj fields =>
      match lookup key fields with
      | Some v => Ok v
      | None => Raise (KeyError key)
      end
  | _ => Raise TypeError
  end.

(** Truth value testing. *)
Definition truthy (v : json) : bool :=
  match v with
  | JNull => false
  | JBool b => b
  | JInt n => negb (n =? 0)%Z
  | JFloat (FFinite m _) => negb (m =? 0)%Z
  | JFloat _ => true
  | JStr s => negb (String.eqb s "")
  | JArr items => match items with [] => false | _ => true end
  | JObj fields => match fields with [] => false | _ => true end
  end.

(** [v == 'literal']: only a [str] equals a [str]. *)
Definition eq_str (v : json) (literal : string) : bool :=
  match v with
  | JStr s => String.eqb s literal
  | _ => false
  end.

(** [sub in s] on two strings. *)
Fixpoint substring_of (sub s : string) : bool :=
  if String.prefix sub s then true
  else match s with
       | EmptyString => false
       | String _ rest => substring_of sub rest
       end.

(** ['literal' in container]: substring of a [str], element of a list, key
    of a dict; [TypeError] on values that are not iterable. *)
Definition contains (literal : string) (container : json) : result bool :=
  match container with
  | JStr s => Ok (substring_of literal s)
  | JArr items => Ok (existsb (fun v => eq_str v literal) items)
  | JObj fields =>
      Ok (match lookup literal fields with Some _ => true | None => false end)
  | _ => Raise TypeError
  end.

Fixpoint characters (s : string) : list json :=
  match s with
  | EmptyString => []
  | String c rest => JStr (String c EmptyString) :: characters rest
  end.

(** What [for x in v] ranges over: the items of a list, the keys of a
    dict, the characters of a string; [TypeError] otherwise. *)
Definition iter (v : json) : result (list json) :=
  match v with
  | JArr items => Ok items
  | JObj fields => Ok (map (fun kv => JStr (fst kv)) fields)
  | JStr s => Ok (characters s)
  | _ => Raise TypeError
  end.

(** [try: return body / except Exception: return None]. *)
Definition try_or_none {A : Type} (body : result (option A)) : option A :=
  match body with
  | Ok r => r
  | Raise _ => None
  end.

End Py.

Import Py.

Declare Scope py_scope.
Delimit Scope py_scope with py.
Notation "x <- m ;; k" := (Py.bind m (fun x => k))
  (at level 61, m at next level, right associativity) : py_scope.
Local Open Scope py_scope.

(** The empty dict [{}] written as a default. *)
Definition empty_dict : json := JObj [].

(** ** The output records *)

Module Media.
Record t : Type := mk {
  type : json;
  url : json;
  display_url : json
}.
End Media.

Module TweetInfo.
Record t : Type := mk {
  tweet_id : json;
  text : json;
  created_at : json;
  retweet_count : json;
  favorite_count : json;
  reply_count : json;
  quote_count : json;
  bookmark_count : json;
  views : json;
  lang : json;
  source : json;
  media : list Media.t
}.
End TweetInfo.

Module UserInfo.
Record t : Type := mk {
  user_id : json;
  screen_name : json;
  name : json;
  description : json;
  location : json;
  followers_count : json;
  friends_count : json;
  statuses_count : json;
  created_at : json;
  verified : json;
  is_blue_verified : json;
  profile_image_url : json;
  profile_banner_url : json;
  url : json
}.
End UserInfo.

Record extraction : Type := mk_extraction {
  extracted_at : string;
  tweet : TweetInfo.t;
  user : UserInfo.t
}.

(** ** [_extract_tweet_data] *)

(** The body of the media loop: one appended item per element. *)
Definition media_entry (media : json) : result Media.t :=
  ty <- get media "type" JNull ;;
  u <- get media "media_url_https" JNull ;;
  du <- get media "display_url" JNull ;;
  Ok (Media.mk ty u du).

Fixpoint media_loop (media_list : list json) : result (list Media.t) :=
  match media_list with
  | [] => Ok []
  | media :: rest =>
      item <- media_entry media ;;
      items <- media_loop rest ;;
      Ok (item :: items)
  end.

(** [now] is the reading of [datetime.now().isoformat()]; it is the last
    thing the function evaluates, so a call reads the clock at most once and
    only when it returns a record. *)
Definition _extract_tweet_data (now : string) (tweet_data : json)
  : result extraction :=
  legacy <- get tweet_data "legacy" empty_dict ;;
  core <- get tweet_data "core" empty_dict ;;
  user_results <- get core "user_results" empty_dict ;;
  user_result <- get user_results "result" empty_dict ;;
  user_legacy <- get user_result "legacy" empty_dict ;;
  tweet_id <- get tweet_data "rest_id" JNull ;;
  text <- get legacy "full_text" (JStr "") ;;
  created_at <- get legacy "created_at" (JStr "") ;;
  retweet_count <- get legacy "retweet_count" (JInt 0) ;;
  favorite_count <- get legacy "favorite_count" (JInt 0) ;;
  reply_count <- get legacy "reply_count" (JInt 0) ;;
  quote_count <- get legacy "quote_count" (JInt 0) ;;
  bookmark_count <- get legacy "bookmark_count" (JInt 0) ;;
  views_obj <- get tweet_data "views" empty_dict ;;
  views <- get views_obj "count" JNull ;;
  lang <- get legacy "lang" (JStr "") ;;
  source <- get legacy "source" (JStr "") ;;
  extended_entities <- get legacy "extended_entities" empty_dict ;;
  media_list <- get extended_entities "media" (JArr []) ;;
  media_items <- iter media_list ;;
  media <- media_loop media_items ;;
  user_id <- get user_result "rest_id" JNull ;;
  screen_name <- get user_legacy "screen_name" (JStr "") ;;
  name <- get user_legacy "name" (JStr "") ;;
  description <- get user_legacy "description" (JStr "") ;;
  location <- get user_legacy "location" (JStr "") ;;
  followers_count <- get user_legacy "followers_count" (JInt 0) ;;
  friends_count <- get user_legacy "friends_count" (JInt 0) ;;
  statuses_count <- get user_legacy "statuses_count" (JInt 0) ;;
  user_created_at <- get user_legacy "created_at" (JStr "") ;;
  verified <- get user_legacy "verified" (JBool false) ;;
  is_blue_verified <- get user_result "is_blue_verified" (JBool false) ;;
  profile_image_url <- get user_legacy "profile_image_url_https" (JStr "") ;;
  profile_banner_url <- get user_legacy "profile_banner_url" (JStr "") ;;
  url <- get user_legacy "url" (JStr "") ;;
  Ok {| extracted_at := now;
        tweet := TweetInfo.mk tweet_id text created_at retweet_count
                   favorite_count reply_count quote_count bookmark_count
                   views lang source media;
        user := UserInfo.mk user_id screen_name name description location
                  followers_count friends_count statuses_count
                  user_created_at verified is_blue_verified
                  profile_image_url profile_banner_url url |}.

(** ** [extract_from_tweet_detail] *)

(** The loop over [instructions]: the entry list of the first
    [TimelineAddEntries] instruction, [None] when the loop ends without one. *)
Fixpoint find_entries (instructions : list json) : result (option json) :=
  match instructions with
  | [] => Ok None
  | instruction :: rest =>
      ty <- get instruction "type" JNull ;;
      if eq_str ty "TimelineAddEntries"
      then entries <- get instruction "entries" (JArr []) ;; Ok (Some entries)
      else find_entries rest
  end.

(** The chain content -> itemContent -> tweet_results -> result. *)
Definition entry_result (entry : json) : result json :=
  content <- get entry "content" empty_dict ;;
  item_content <- get content "itemContent" empty_dict ;;
  tweet_results <- get item_content "tweet_results" empty_dict ;;
  get tweet_results "result" empty_dict.

Definition is_tweet (result : json) : Py.result bool :=
  ty <- get result "__typename" JNull ;;
  Ok (eq_str ty "Tweet").

(** One turn of the loop over [entries]: [Some result] when the turn sets
    [focal_tweet] and breaks, [None] when the loop goes on. *)
Definition entry_focal (entry : json) : result (option json) :=
  entry_id <- get entry "entryId" (JStr "") ;;
  marked <- contains "tweet-" entry_id ;;
  if marked then
    result <- entry_result entry ;;
    tweet <- is_tweet result ;;
    if tweet then Ok (Some result) else Ok None
  else Ok None.

Fixpoint find_focal (entries : list json) : result (option json) :=
  match entries with
  | [] => Ok None
  | entry :: rest =>
      focal <- entry_focal entry ;;
      match focal with
      | Some result => Ok (Some result)
      | None => find_focal rest
      end
  end.

(** [response_data['data']['threaded_conversation_with_injections_v2']['instructions']] *)
Definition detail_instructions (response_data : json) : result json :=
  data <- index response_data "data" ;;
  conversation <- index data "threaded_conversation_with_injections_v2" ;;
  index conversation "instructions".

Definition extract_from_tweet_detail_body (now : string) (response_data : json)
  : result (option extraction) :=
  instructions <- detail_instructions response_data ;;
  instruction_list <- iter instructions ;;
  entries <- find_entries instruction_list ;;
  match entries with
  | None => Ok None
  | Some entries =>
      if negb (truthy entries) then Ok None
      else
        entry_list <- iter entries ;;
        focal_tweet <- find_focal entry_list ;;
        match focal_tweet with
        | None => Ok None
        | Some focal_tweet =>
            if negb (truthy focal_tweet) then Ok None
            else
              extracted <- _extract_tweet_data now focal_tweet ;;
              Ok (Some extracted)
        end
  end.

Definition extract_from_tweet_detail (now : string) (response_data : json)
  : option extraction :=
  try_or_none (extract_from_tweet_detail_body now response_data).

(** ** [extract_from_tweet_result] *)

Definition extract_from_tweet_result_body (now : string) (response_data : json)
  : result (option extraction) :=
  data <- index response_data "data" ;;
  tweet_result <- index data "tweetResult" ;;
  result <- get tweet_result "result" empty_dict ;;
  tweet <- is_tweet result ;;
  if tweet then
    result <- index tweet_result "result" ;;
    extracted <- _extract_tweet_data now result ;;
    Ok (Some extracted)
  else Ok None.

Definition extract_from_tweet_result (now : string) (response_data : json)
  : option extraction :=
  try_or_none (extract_from_tweet_result_body now response_data).

(** ** The fetch boundary and the persistence boundary *)

Inductive endpoint : Type :=
| TweetDetail
| TweetResultByRestId.

(** What [requests.get] comes back with: an exception of the transport, or
    a response with a status code whose body parses as JSON or does not. *)
Inductive http_reply : Type :=
| ConnectionError
| Response (status_code : Z) (body : option json).

Inductive event : Type :=
| EvGet (target : endpoint) (tweet_id : string)
| EvSaveResponse (data : json) (filename : string)
| EvSaveExtracted (data : extraction) (filename : string).

(** Effectful code threads the trace of events, oldest first. *)
Definition IO (A : Type) : Type := list event -> A * list event.

Definition io_ret {A : Type} (a : A) : IO A := fun trace => (a, trace).

Definition io_bind {A B : Type} (m : IO A) (k : A -> IO B) : IO B :=
  fun trace => let (a, trace') := m trace in k a trace'.

Definition emit (e : event) : IO unit := fun trace => (tt, trace ++ [e]).

Definition when (b : bool) (m : IO unit) : IO unit :=
  if b then m else io_ret tt.

Declare Scope io_scope.
Delimit Scope io_scope with io.
Notation "x <- m ;; k" := (io_bind m (fun x => k))
  (at level 61, m at next level, right associativity) : io_scope.
Notation "m ;; k" := (io_bind m (fun _ => k))
  (at level 61, right associativity) : io_scope.

(** [if api_data:] and [if extracted_data:] on an [Optional] value. *)
Definition truthy_response (api_data : option json) : bool :=
  match api_data with
  | Some d => truthy d
  | None => false
  end.

(** [response.raise_for_status()] raises on 4xx and 5xx. *)
Definition raise_for_status (status_code : Z) : bool :=
  ((400 <=? status_code) && (status_code <? 600))%Z.

(** [try: response = requests.get(..); response.raise_for_status();
    return response.json() / except Exception: return None]. *)
Definition response_json (reply : http_reply) : option json :=
  match reply with
  | ConnectionError => None
  | Response status_code body =>
      if raise_for_status status_code then None else body
  end.

Section Orchestration.

(** The transport, and the clock read by the one extraction of a run that
    returns a record. *)
Variable requests_get : endpoint -> string -> http_reply.
Variable now : string.

Definition fetch_tweet_detail (tweet_id : string) : IO (option json) :=
  (emit (EvGet TweetDetail tweet_id) ;;
   io_ret (response_json (requests_get TweetDetail tweet_id)))%io.

Definition fetch_tweet_result (tweet_id : string) : IO (option json) :=
  (emit (EvGet TweetResultByRestId tweet_id) ;;
   io_ret (response_json (requests_get TweetResultByRestId tweet_id)))%io.

Definition save_response (data : json) (filename : string) : IO unit :=
  emit (EvSaveResponse data filename).

Definition save_extracted_data (data : extraction) (filename : string)
  : IO unit :=
  emit (EvSaveExtracted data filename).

(** The first [if api_data:] block of [fetch_and_extract]. *)
Definition try_tweet_detail (tweet_id : string) (save_raw : bool)
  : IO (option extraction) :=
  (api_data <- fetch_tweet_detail tweet_id ;;
   match api_data with
   | Some data =>
       if truthy data then
         when save_raw
           (save_response data ("tweet_detail_" ++ tweet_id ++ ".json")) ;;
         io_ret (extract_from_tweet_detail now data)
       else io_ret None
   | None => io_ret None
   end)%io.

(** The [if not extracted_data:] block. *)
Definition try_tweet_result (tweet_id : string) (save_raw : bool)
  : IO (option extraction) :=
  (api_data <- fetch_tweet_result tweet_id ;;
   match api_data with
   | Some data =>
       if truthy data then
         when save_raw
           (save_response data ("tweet_result_" ++ tweet_id ++ ".json")) ;;
         io_ret (extract_from_tweet_result now data)
       else io_ret None
   | None => io_ret None
   end)%io.

Definition fetch_and_extract (tweet_id : string)
  (save_raw save_extracted : bool) : IO (option extraction) :=
  (extracted_data <- try_tweet_detail tweet_id save_raw ;;
   extracted_data <-
     match extracted_data with
     | Some _ => io_ret extracted_data
     | None => try_tweet_result tweet_id save_raw
     end ;;
   match extracted_data with
   | Some data =>
       when save_extracted
         (save_extracted_data data ("extracted_" ++ tweet_id ++ ".json")) ;;
       io_ret (Some data)
   | None => io_ret None
   end)%io.

(** [extract_from_file], from the document [json.load] returned on. *)
Definition extract_from_file (response_data : json) (output_filename : string)
  : IO (option extraction) :=
  (let extracted_data := extract_from_tweet_detail now response_data in
   let extracted_data :=
     match extracted_data with
     | Some _ => extracted_data
     | None => extract_from_tweet_result now response_data
     end in
   match extracted_data with
   | Some data =>
       save_extracted_data data output_filename ;;
       io_ret (Some data)
   | None => io_ret None
   end)%io.

End Orchestration.



(** The network reads of a trace, in order. *)
Definition is_network_read (e : event) : bool :=
  match e with
  | EvGet _ _ => true
  | _ => false
  end.

Definition gets (trace : list event) : list event :=
  filter is_network_read trace.

(** A record without its extraction timestamp. *)
Definition untimed (r : extraction) : TweetInfo.t * UserInfo.t :=
  (tweet r, user r).

(** ** Where the code looks: selectors written as the source writes them *)

(** [field fields key default] is what [get] answers on a dict. *)
Definition field (fields : list (string * json)) (key : string)
  (default : json) : json :=
  match lookup key fields with
  | Some v => v
  | None => default
  end.

(** Lines 152-156 and 174 of the source, one local variable each. *)
Definition legacy_of (tweet_data : json) : result json :=
  get tweet_data "legacy" empty_dict.

Definition user_result_of (tweet_data : json) : result json :=
  core <- get tweet_data "core" empty_dict ;;
  user_results <- get core "user_results" empty_dict ;;
  get user_results "result" empty_dict.

Definition user_legacy_of (tweet_data : json) : result json :=
  user_result <- user_result_of tweet_data ;;
  get user_result "legacy" empty_dict.

Definition views_of (tweet_data : json) : result json :=
  get tweet_data "views" empty_dict.

Definition media_list_of (tweet_data : json) : result json :=
  legacy <- legacy_of tweet_data ;;
  extended_entities <- get legacy "extended_entities" empty_dict ;;
  get extended_entities "media" (JArr []).

(** The entry list the second loop of [extract_from_tweet_detail] runs over;
    empty when the function returns before the loop. *)
Definition scanned_entries (response_data : json) : result (list json) :=
  instructions <- detail_instructions response_data ;;
  instruction_list <- iter instructions ;;
  entries <- find_entries instruction_list ;;
  match entries with
  | None => Ok []
  | Some entries => if negb (truthy entries) then Ok [] else iter entries
  end.

(** [response_data['data']['tweetResult']['result']]. *)
Definition result_target (response_data : json) : result json :=
  data <- index response_data "data" ;;
  tweet_result <- index data "tweetResult" ;;
  index tweet_result "result".

(** ['tweet-' in entry.get('entryId', '')], true or false. *)
Definition marked (entry : json) (b : bool) : Prop :=
  exists entry_id,
    get entry "entryId" (JStr "") = Ok entry_id /\
    contains "tweet-" entry_id = Ok b.

(** An entry the loop passes over: its identifier lacks the marker, or it
    carries the marker and its result object is not of type [Tweet]. *)
Definition non_post_entry (entry : json) : Prop :=
  marked entry false \/
  (marked entry true /\
   exists result, entry_result entry = Ok result /\ is_tweet result = Ok false).

(** An entry with the marker whose result object [result] is a [Tweet]. *)
Definition post_entry (entry result : json) : Prop :=
  marked entry true /\ entry_result entry = Ok result /\ is_tweet result = Ok true.

(** The object a shape's locator resolves in a document. *)
Inductive located : endpoint -> json -> json -> Prop :=
| located_detail (response_data : json) (entries : list json)
    (entry result : json) :
    scanned_entries response_data = Ok entries ->
    In entry entries ->
    marked entry true ->
    entry_result entry = Ok result ->
    located TweetDetail response_data result
| located_result (response_data result : json) :
    result_target response_data = Ok result ->
    located TweetResultByRestId response_data result.

(** The two extraction paths, by shape. *)
Definition extract (shape : endpoint) (now : string) (response_data : json)
  : option extraction :=
  match shape with
  | TweetDetail => extract_from_tweet_detail now response_data
  | TweetResultByRestId => extract_from_tweet_result now response_data
  end.

Definition extract_body (shape : endpoint) (now : string) (response_data : json)
  : result (option extraction) :=
  match shape with
  | TweetDetail => extract_from_tweet_detail_body now response_data
  | TweetResultByRestId => extract_from_tweet_result_body now response_data
  end.

(** ** Sample documents *)

Definition tweet_object (rest_id : string) : json :=
  JObj [("__typename", JStr "Tweet"); ("rest_id", JStr rest_id)].

Definition tombstone_object : json :=
  JObj [("__typename", JStr "TweetTombstone")].

Definition timeline_entry (entry_id : string) (result : json) : json :=
  JObj [("entryId", JStr entry_id);
        ("content",
         JObj [("itemContent",
                JObj [("tweet_results", JObj [("result", result)])])])].

Definition detail_document (entries : list json) : json :=
  JObj [("data",
         JObj [("threaded_conversation_with_injections_v2",
                JObj [("instructions",
                       JArr [JObj [("type", JStr "TimelineClearCache")];
                             JObj [("type", JStr "TimelineAddEntries");
                                   ("entries", JArr entries)]])])])].

Definition result_document (result : json) : json :=
  JObj [("data", JObj [("tweetResult", JObj [("result", result)])])].

(** A post with three media items, an author with one verification flag of
    each kind, a view count. *)
Definition media_object (kind url : string) : json :=
  JObj [("type", JStr kind);
        ("media_url_https", JStr url);
        ("display_url", JStr ("pic.x.com/" ++ kind));
        ("sizes", JObj [("large", JObj [("w", JInt 1200)])])].

Definition author_object (verified blue : bool) : json :=
  JObj [("rest_id", JStr "44196397");
        ("is_blue_verified", JBool blue);
        ("legacy", JObj [("screen_name", JStr "alice");
                         ("verified", JBool verified);
                         ("followers_count", JInt 12)])].

Definition full_tweet_object (verified blue : bool) : json :=
  JObj [("__typename", JStr "Tweet");
        ("rest_id", JStr "1975583212085932341");
        ("core", JObj [("user_results",
                        JObj [("result", author_object verified blue)])]);
        ("views", JObj [("count", JStr "1024")]);
        ("legacy",
         JObj [("full_text", JStr "hello");
               ("favorite_count", JInt 3);
               ("extended_entities",
                JObj [("media", JArr [media_object "photo" "https://a";
                                      media_object "video" "https://b";
                                      media_object "animated_gif" "https://c"])])])].

(** The record [_extract_tweet_data] builds from the fields of the post
    object, of its legacy object, of the author's result object and legacy
    object, of the views object, and from the mapped media items. *)
Definition mapped (now : string)
  (post legacy user_result user_legacy views : list (string * json))
  (media : list Media.t) : extraction :=
  {| extracted_at := now;
     tweet :=
       TweetInfo.mk
         (field post "rest_id" JNull)
         (field legacy "full_text" (JStr ""))
         (field legacy "created_at" (JStr ""))
         (field legacy "retweet_count" (JInt 0))
         (field legacy "favorite_count" (JInt 0))
         (field legacy "reply_count" (JInt 0))
         (field legacy "quote_count" (JInt 0))
         (field legacy "bookmark_count" (JInt 0))
         (field views "count" JNull)
         (field legacy "lang" (JStr ""))
         (field legacy "source" (JStr ""))
         media;
     user :=
       UserInfo.mk
         (field user_result "rest_id" JNull)
         (field user_legacy "screen_name" (JStr ""))
         (field user_legacy "name" (JStr ""))
         (field user_legacy "description" (JStr ""))
         (field user_legacy "location" (JStr ""))
         (field user_legacy "followers_count" (JInt 0))
         (field user_legacy "friends_count" (JInt 0))
         (field user_legacy "statuses_count" (JInt 0))
         (field user_legacy "created_at" (JStr ""))
         (field user_legacy "verified" (JBool false))
         (field user_result "is_blue_verified" (JBool false))
         (field user_legacy "profile_image_url_https" (JStr ""))
         (field user_legacy "profile_banner_url" (JStr ""))
         (field user_legacy "url" (JStr "")) |}.

(** The media item of one source entry. *)
Definition media_item (fields : list (string * json)) : Media.t :=
  Media.mk (field fields "type" JNull)
           (field fields "media_url_https" JNull)
           (field fields "display_url" JNull).

(** The leaves the record copies.  [Identifier]: the two [rest_id]s;
    [Text]: the strings of the two legacy objects; [Count]: the counters;
    [Flag]: the two verification flags; [ViewCount]: [views.count]. *)
Inductive leaf_kind : Type :=
| Identifier
| Text
| Count
| Flag
| ViewCount.

(** What the code passes to [get] as the default, by kind of leaf. *)
Definition default_of (kind : leaf_kind) : json :=
  match kind with
  | Identifier => JNull
  | Text => JStr ""
  | Count => JInt 0
  | Flag => JBool false
  | ViewCount => JNull
  end.

Record leaf : Type := mk_leaf {
  leaf_source : list (string * json);
  leaf_key : string;
  kind_of_leaf : leaf_kind;
  leaf_value : json
}.

(** Lines 159-171 and 184-199 of the source, one row per key of
    [tweet_info] and [user_info]: the dict read, the key read, the kind of
    leaf, the field of the record [r] it ends up in. *)
Definition leaves (post legacy user_result user_legacy views : list (string * json))
  (r : extraction) : list leaf :=
  [ mk_leaf post "rest_id" Identifier (TweetInfo.tweet_id (tweet r));
    mk_leaf legacy "full_text" Text (TweetInfo.text (tweet r));
    mk_leaf legacy "created_at" Text (TweetInfo.created_at (tweet r));
    mk_leaf legacy "retweet_count" Count (TweetInfo.retweet_count (tweet r));
    mk_leaf legacy "favorite_count" Count (TweetInfo.favorite_count (tweet r));
    mk_leaf legacy "reply_count" Count (TweetInfo.reply_count (tweet r));
    mk_leaf legacy "quote_count" Count (TweetInfo.quote_count (tweet r));
    mk_leaf legacy "bookmark_count" Count (TweetInfo.bookmark_count (tweet r));
    mk_leaf views "count" ViewCount (TweetInfo.views (tweet r));
    mk_leaf legacy "lang" Text (TweetInfo.lang (tweet r));
    mk_leaf legacy "source" Text (TweetInfo.source (tweet r));
    mk_leaf user_result "rest_id" Identifier (UserInfo.user_id (user r));
    mk_leaf user_legacy "screen_name" Text (UserInfo.screen_name (user r));
    mk_leaf user_legacy "name" Text (UserInfo.name (user r));
    mk_leaf user_legacy "description" Text (UserInfo.description (user r));
    mk_leaf user_legacy "location" Text (UserInfo.location (user r));
    mk_leaf user_legacy "followers_count" Count (UserInfo.followers_count (user r));
    mk_leaf user_legacy "friends_count" Count (UserInfo.friends_count (user r));
    mk_leaf user_legacy "statuses_count" Count (UserInfo.statuses_count (user r));
    mk_leaf user_legacy "created_at" Text (UserInfo.created_at (user r));
    mk_leaf user_legacy "verified" Flag (UserInfo.verified (user r));
    mk_leaf user_result "is_blue_verified" Flag (UserInfo.is_blue_verified (user r));
    mk_leaf user_legacy "profile_image_url_https" Text
      (UserInfo.profile_image_url (user r));
    mk_leaf user_legacy "profile_banner_url" Text
      (UserInfo.profile_banner_url (user r));
    mk_leaf user_legacy "url" Text (UserInfo.url (user r)) ].

(** A leaf is copied when present and reads as the default of its kind when
    missing. *)
Definition copied_or_default (l : leaf) : Prop :=
  (forall v, lookup (leaf_key l) (leaf_source l) = Some v -> leaf_value l = v) /\
  (lookup (leaf_key l) (leaf_source l) = None ->
   leaf_value l = default_of (kind_of_leaf l)).

(** The same for the three keys of a media item, which read as [None] when
    missing. *)
Definition media_copied_or_absent (fields : list (string * json))
  (item : Media.t) : Prop :=
  item = media_item fields /\
  (lookup "type" fields = None -> Media.type item = JNull) /\
  (lookup "media_url_https" fields = None -> Media.url item = JNull) /\
  (lookup "display_url" fields = None -> Media.display_url item = JNull).

(** The post has no media list: no [extended_entities] in its legacy object,
    or no [media] in that. *)
Definition media_absent (tweet_data : json) : Prop :=
  exists legacy,
    legacy_of tweet_data = Ok (JObj legacy) /\
    (lookup "extended_entities" legacy = None \/
     exists extended_entities,
       lookup "extended_entities" legacy = Some (JObj extended_entities) /\
       lookup "media" extended_entities = None).

(** The type discriminant of a result object. *)
Definition type_discriminant (result : json) : option json :=
  match result with
  | JObj fields => lookup "__typename" fields
  | _ => None
  end.

(** A post object with no optional leaf at all. *)
Definition bare_tweet : list (string * json) := [("__typename", JStr "Tweet")].

(** A clock reading for the examples. *)
Definition noon : string := "2025-10-08T12:00:00".

(** The key under [data] a shape starts from. *)
Definition shape_key (shape : endpoint) : string :=
  match shape with
  | TweetDetail => "threaded_conversation_with_injections_v2"
  | TweetResultByRestId => "tweetResult"
  end.

(** The object a path hands to [_extract_tweet_data]: the result object of
    the first post entry, or the fixed [result]. *)
Definition target (shape : endpoint) (response_data result : json) : Prop :=
  match shape with
  | TweetDetail =>
      exists before entry after,
        scanned_entries response_data = Ok (before ++ entry :: after) /\
        Forall non_post_entry before /\
        post_entry entry result
  | TweetResultByRestId => result_target response_data = Ok result
  end.

(** A post whose legacy object is [null]: a structural mismatch inside the
    mapping. *)
Definition null_legacy_tweet : json :=
  JObj [("__typename", JStr "Tweet"); ("legacy", JNull)].

(** What one endpoint contributes to a run: its answer, taken through the
    path of its shape. *)
Definition outcome (requests_get : endpoint -> string -> http_reply)
  (now : string) (shape : endpoint) (tweet_id : string) : option extraction :=
  match response_json (requests_get shape tweet_id) with
  | Some data => extract shape now data
  | None => None
  end.

(** The write of a raw response: only of a truthy answer, only when
    [save_raw] is set. *)
Definition saved_response (save_raw : bool) (api_data : option json)
  (filename : string) : list event :=
  match api_data with
  | Some data =>
      if truthy data && save_raw then [EvSaveResponse data filename] else []
  | None => []
  end.

(** The write of the record: only of a record, only when [save_extracted]
    is set. *)
Definition saved_extracted (save_extracted : bool)
  (extracted_data : option extraction) (filename : string) : list event :=
  match extracted_data with
  | Some data => if save_extracted then [EvSaveExtracted data filename] else []
  | None => []
  end.

(** Two endpoints for the examples: the primary answers with a tombstone
    and the secondary with post 20; both answer with the same document. *)
Definition tombstone_then_tweet (target : endpoint) (tweet_id : string)
  : http_reply :=
  match target with
  | TweetDetail =>
      Response 200
        (Some (detail_document [timeline_entry "tweet-1" tombstone_object]))
  | TweetResultByRestId =>
      Response 200 (Some (result_document (tweet_object "20")))
  end.

Definition always (response_data : json) (target : endpoint)
  (tweet_id : string) : http_reply :=
  Response 200 (Some response_data).

(** An instruction the first loop passes over: a dict whose [type] is not
    ["TimelineAddEntries"]. *)
Definition other_instruction (instruction : json) : Prop :=
  exists fields,
    instruction = JObj fields /\
    eq_str (field fields "type" JNull) "TimelineAddEntries" = false.

(** A dict under [key], or [{}] when the key is missing or holds something
    else; and whether the key is missing or holds a dict. *)
Definition sub_dict (fields : list (string * json)) (key : string)
  : list (string * json) :=
  match lookup key fields with
  | Some (JObj sub) => sub
  | _ => []
  end.

Definition dict_or_missing (fields : list (string * json)) (key : string) : bool :=
  match lookup key fields with
  | None => true
  | Some (JObj _) => true
  | Some _ => false
  end.

Definition is_dict (v : json) : bool :=
  match v with
  | JObj _ => true
  | _ => false
  end.

(** What the media loop can run over without raising: nothing at all, or a
    list of dicts. *)
Definition media_ok (extended_entities : list (string * json)) : bool :=
  match lookup "media" extended_entities with
  | None => true
  | Some (JArr items) => forallb is_dict items
  | Some (JObj fields) => match fields with [] => true | _ => false end
  | Some (JStr s) => String.eqb s ""
  | Some _ => false
  end.

(** The post objects [_extract_tweet_data] returns on. *)
Definition mappable (tweet_data : json) : bool :=
  match tweet_data with
  | JObj post =>
      let legacy := sub_dict post "legacy" in
      let core := sub_dict post "core" in
      let user_results := sub_dict core "user_results" in
      let user_result := sub_dict user_results "result" in
      dict_or_missing post "legacy"
      && dict_or_missing post "core"
      && dict_or_missing core "user_results"
      && dict_or_missing user_results "result"
      && dict_or_missing user_result "legacy"
      && dict_or_missing post "views"
      && dict_or_missing legacy "extended_entities"
      && media_ok (sub_dict legacy "extended_entities")
  | _ => false
  end.

(** A primary-shape document given by its instruction list. *)
Definition instructions_document (instructions : json) : json :=
  JObj [("data",
         JObj [("threaded_conversation_with_injections_v2",
                JObj [("instructions", instructions)])])].

Definition add_entries (entries : json) : json :=
  JObj [("type", JStr "TimelineAddEntries"); ("entries", entries)].

(** ** The process around the extractor: configuration, requests, files
    and the command line

    Here a write can fail, a configuration can lack a key, and the program
    can end by [sys.exit] or by an uncaught exception. *)

Module Process.

(** An uncaught exception: one of the extractor's operations, an [OSError]
    of the file system, or an exception raised while the summary lines are
    formatted ([TypeError], [ValueError] or [KeyError], by value). *)
Inductive crash : Type :=
| PyError (e : exn)
| OSError
| SummaryError.

Inductive ending (A : Type) : Type :=
| Returns (a : A)
| Exits (code : Z)
| Crashes (c : crash).
Arguments Returns {A} a.
Arguments Exits {A} code.
Arguments Crashes {A} c.

Definition Proc (A : Type) : Type := list event -> ending A * list event.

Definition ret {A : Type} (a : A) : Proc A := fun trace => (Returns a, trace).

Definition bind {A B : Type} (m : Proc A) (k : A -> Proc B) : Proc B :=
  fun trace =>
    match m trace with
    | (Returns a, trace') => k a trace'
    | (Exits code, trace') => (Exits code, trace')
    | (Crashes c, trace') => (Crashes c, trace')
    end.

(** A pure computation inside the process: its exception is uncaught. *)
Definition lift {A : Type} (m : result A) : Proc A :=
  fun trace =>
    match m with
    | Ok a => (Returns a, trace)
    | Raise e => (Crashes (PyError e), trace)
    end.

Definition emit (e : event) : Proc unit := fun trace => (Returns tt, trace ++ [e]).

Definition exit {A : Type} (code : Z) : Proc A := fun trace => (Exits code, trace).

Definition when (b : bool) (m : Proc unit) : Proc unit :=
  if b then m else ret tt.

(** [d.copy()]: dicts and lists have the method. *)
Definition copy (v : json) : result json :=
  match v with
  | JObj _ => Ok v
  | JArr _ => Ok v
  | _ => Raise AttributeError
  end.

(** A dict after [d[key] = value]: the value of an existing key is replaced
    in place, a new key goes to the end. *)
Fixpoint update (key : string) (value : json) (fields : list (string * json))
  : list (string * json) :=
  match fields with
  | [] => [(key, value)]
  | (k, v) :: rest =>
      if String.eqb k key then (k, value) :: rest
      else (k, v) :: update key value rest
  end.

(** [d[key] = value] with a [str] key: [TypeError] on everything but a
    dict. *)
Definition set_item (d : json) (key : string) (value : json) : result json :=
  match d with
  | JObj fields => Ok (JObj (update key value fields))
  | _ => Raise TypeError
  end.

(** The attributes of a [TwitterExtractor] the requests use. *)
Record extractor : Type := mk_extractor {
  config : json;
  auth_token : json;
  csrf_token : json;
  headers : json;
  cookies : json
}.

(** [_setup_headers]: the headers and the cookies. *)
Definition _setup_headers (config csrf_token auth_token : json)
  : result (json * json) :=
  (configured <- index config "headers" ;;
   copied <- copy configured ;;
   headers <- set_item copied "x-csrf-token" csrf_token ;;
   Ok (headers,
       JObj [("auth_token", auth_token); ("ct0", csrf_token)]))%py.

(** The two tokens [__init__] reads. *)
Definition read_tokens (config : json) : result (json * json) :=
  (auth <- index config "auth" ;;
   auth_token <- index auth "auth_token" ;;
   auth <- index config "auth" ;;
   csrf_token <- index auth "csrf_token" ;;
   Ok (auth_token, csrf_token))%py.

(** [__init__].  [loaded] is what [_load_config] read, [None] when opening or
    parsing the file raised (the method then calls [sys.exit(1)]);
    [output_dir_ok] says that the output directory exists or can be made. *)
Definition __init__ (loaded : option json) (output_dir_ok : bool)
  : ending extractor :=
  match loaded with
  | None => Exits 1
  | Some config =>
      match read_tokens config with
      | Raise e => Crashes (PyError e)
      | Ok (auth_token, csrf_token) =>
          if output_dir_ok then
            match _setup_headers config csrf_token auth_token with
            | Raise e => Crashes (PyError e)
            | Ok (headers, cookies) =>
                Returns (mk_extractor config auth_token csrf_token headers cookies)
            end
          else Crashes OSError
      end
  end.

(** The configuration keys of a shape, as the two fetch methods spell
    them. *)
Definition endpoint_key (shape : endpoint) : string :=
  match shape with
  | TweetDetail => "tweet_detail"
  | TweetResultByRestId => "tweet_result"
  end.

Definition variables_key (shape : endpoint) : string :=
  match shape with
  | TweetDetail => "tweet_detail_variables"
  | TweetResultByRestId => "tweet_result_variables"
  end.

Definition features_key (shape : endpoint) : string :=
  match shape with
  | TweetDetail => "tweet_detail_features"
  | TweetResultByRestId => "tweet_result_features"
  end.

Definition field_toggles_key (shape : endpoint) : string :=
  match shape with
  | TweetDetail => "tweet_detail_field_toggles"
  | TweetResultByRestId => "tweet_result_field_toggles"
  end.

Definition identifier_key (shape : endpoint) : string :=
  match shape with
  | TweetDetail => "focalTweetId"
  | TweetResultByRestId => "tweetId"
  end.

Definition raw_prefix (shape : endpoint) : string :=
  match shape with
  | TweetDetail => "tweet_detail_"
  | TweetResultByRestId => "tweet_result_"
  end.

(** What is handed to [requests.get]. *)
Record request : Type := mk_request {
  url : json;
  request_headers : json;
  request_cookies : json;
  variables : string;
  features : string;
  fieldToggles : string
}.

(** [variables = config[..].copy(); variables[key] = tweet_id]. *)
Definition request_variables (config : json) (shape : endpoint)
  (tweet_id : json) : result json :=
  (template <- index config (variables_key shape) ;;
   variables <- copy template ;;
   set_item variables (identifier_key shape) tweet_id)%py.

Section World.

(** [json.dumps]; [requests.get] with its exceptions; whether a file of the
    output directory can be opened and written; how an f-string renders a
    value; the clock; what [open] and [json.load] read from a path, [None]
    when either raises; [os.path.exists]. *)
Variable dumps : json -> string.
Variable send : request -> http_reply.
Variable writable : string -> bool.
Variable py_str : json -> string.
Variable now : string.
Variable read_json : string -> option json.
Variable path_exists : string -> bool.

(** The lines of a fetch method before its [try]. *)
Definition build_request (self : extractor) (shape : endpoint)
  (tweet_id : json) : result request :=
  (endpoints <- index (config self) "api_endpoints" ;;
   url <- index endpoints (endpoint_key shape) ;;
   variables <- request_variables (config self) shape tweet_id ;;
   features <- index (config self) (features_key shape) ;;
   field_toggles <- index (config self) (field_toggles_key shape) ;;
   Ok (mk_request url (headers self) (cookies self)
         (dumps variables) (dumps features) (dumps field_toggles)))%py.

Definition fetch (self : extractor) (shape : endpoint) (tweet_id : json)
  : Proc (option json) :=
  bind (lift (build_request self shape tweet_id)) (fun req =>
  bind (emit (EvGet shape (py_str tweet_id))) (fun _ =>
  ret (response_json (send req)))).

Definition fetch_tweet_detail (self : extractor) (tweet_id : json)
  : Proc (option json) :=
  fetch self TweetDetail tweet_id.

Definition fetch_tweet_result (self : extractor) (tweet_id : json)
  : Proc (option json) :=
  fetch self TweetResultByRestId tweet_id.

(** The two writers: the event is the completed write. *)
Definition save_response (data : json) (filename : string) : Proc unit :=
  fun trace =>
    if writable filename then (Returns tt, trace ++ [EvSaveResponse data filename])
    else (Crashes OSError, trace).

Definition save_extracted_data (data : extraction) (filename : string)
  : Proc unit :=
  fun trace =>
    if writable filename then (Returns tt, trace ++ [EvSaveExtracted data filename])
    else (Crashes OSError, trace).

Definition try_shape (self : extractor) (shape : endpoint) (tweet_id : json)
  (save_raw : bool) : Proc (option extraction) :=
  bind (fetch self shape tweet_id) (fun api_data =>
  match api_data with
  | Some data =>
      if truthy data then
        bind (when save_raw
                (save_response data
                   (raw_prefix shape ++ py_str tweet_id ++ ".json")))
             (fun _ => ret (extract shape now data))
      else ret None
  | None => ret None
  end).

Definition fetch_and_extract (self : extractor) (tweet_id : json)
  (save_raw save_extracted : bool) : Proc (option extraction) :=
  bind (try_shape self TweetDetail tweet_id save_raw) (fun extracted_data =>
  bind (match extracted_data with
        | Some _ => ret extracted_data
        | None => try_shape self TweetResultByRestId tweet_id save_raw
        end) (fun extracted_data =>
  match extracted_data with
  | Some data =>
      bind (when save_extracted
              (save_extracted_data data
                 ("extracted_" ++ py_str tweet_id ++ ".json")))
           (fun _ => ret (Some data))
  | None => ret None
  end)).

(** [extract_from_file]: everything is inside its [try], the write too. *)
Definition extract_from_file (input_file output_filename : string)
  : Proc (option extraction) :=
  fun trace =>
    match read_json input_file with
    | None => (Returns None, trace)
    | Some response_data =>
        let extracted_data :=
          match extract_from_tweet_detail now response_data with
          | Some r => Some r
          | None => extract_from_tweet_result now response_data
          end in
        match extracted_data with
        | Some data =>
            match save_extracted_data data output_filename trace with
            | (Returns _, trace') => (Returns (Some data), trace')
            | (_, trace') => (Returns None, trace')
            end
        | None => (Returns None, trace)
        end
    end.

(** [value[:100]] and [f"{value:,}"]. *)
Definition sliceable (value : json) : bool :=
  match value with
  | JStr _ => true
  | JArr _ => true
  | _ => false
  end.

Definition comma_formattable (value : json) : bool :=
  match value with
  | JInt _ => true
  | JFloat _ => true
  | JBool _ => true
  | _ => false
  end.

(** The summary lines [main] prints of a record; the last one in fetch mode
    only. *)
Definition summary_formats (fetch_mode : bool) (r : extraction) : bool :=
  sliceable (TweetInfo.text (tweet r))
  && comma_formattable (UserInfo.followers_count (user r))
  && (negb fetch_mode
      || (comma_formattable (TweetInfo.favorite_count (tweet r))
          && comma_formattable (TweetInfo.retweet_count (tweet r)))).

Definition report (fetch_mode : bool) (result : option extraction) : Proc unit :=
  match result with
  | Some r =>
      if summary_formats fetch_mode r then ret tt
      else fun trace => (Crashes SummaryError, trace)
  | None => exit 1
  end.

(** [main], from [sys.argv] and what the constructor finds. *)
Definition main (argv : list string) (loaded : option json)
  (output_dir_ok : bool) : Proc unit :=
  bind (fun trace => (__init__ loaded output_dir_ok, trace)) (fun self =>
  match argv with
  | _ :: first :: operands =>
      if String.eqb first "extract" then
        match operands with
        | [input_file; output_filename] =>
            if path_exists input_file then
              bind (extract_from_file input_file output_filename) (report false)
            else exit 1
        | _ => exit 1
        end
      else
        bind (fetch_and_extract self (JStr first) true true) (report true)
  | _ =>
      bind (lift (get (config self) "default_tweet_id" JNull)) (fun tweet_id =>
      if truthy tweet_id then
        bind (fetch_and_extract self tweet_id true true) (report true)
      else exit 1)
  end).

End World.

End Process.

(** A configuration for the examples. *)
Definition sample_config : json :=
  JObj [("auth", JObj [("auth_token", JStr "A"); ("csrf_token", JStr "C")]);
        ("headers", JObj [("authorization", JStr "Bearer B");
                          ("x-csrf-token", JStr "stale")]);
        ("api_endpoints",
         JObj [("tweet_detail", JStr "https://x.test/TweetDetail");
               ("tweet_result", JStr "https://x.test/TweetResultByRestId")]);
        ("tweet_detail_variables",
         JObj [("focalTweetId", JStr "placeholder"); ("withVoice", JBool true)]);
        ("tweet_detail_features", JObj [("f", JBool true)]);
        ("tweet_detail_field_toggles", JObj []);
        ("tweet_result_variables", JObj [("withCommunity", JBool false)]);
        ("tweet_result_features", JObj []);
        ("tweet_result_field_toggles", JObj [])].

(** A rendering of values for the examples: strings as they are. *)
Definition sample_str (v : json) : string :=
  match v with
  | JStr s => s
  | _ => "?"
  end.

(** The command lines [main] turns down before it reads or writes
    anything. *)
Inductive usage_error (path_exists : string -> bool) (config : json)
  : list string -> Prop :=
| wrong_operands (prog : string) (operands : list string) :
    length operands <> 2 ->
    usage_error path_exists config (prog :: "extract" :: operands)
| missing_input (prog input_file output_filename : string) :
    path_exists input_file = false ->
    usage_error path_exists config [prog; "extract"; input_file; output_filename]
| no_identifier (argv : list string) (default : json) :
    length argv <= 1 ->
    get config "default_tweet_id" JNull = Ok default ->
    truthy default = false ->
    usage_error path_exists config argv.

(** The extractor [__init__] builds of [sample_config]. *)
Definition sample_extractor : Process.extractor :=
  Process.mk_extractor sample_config (JStr "A") (JStr "C")
    (JObj [("authorization", JStr "Bearer B"); ("x-csrf-token", JStr "C")])
    (JObj [("auth_token", JStr "A"); ("ct0", JStr "C")]).

(** The events of a run up to its first write that fails, and whether one
    failed. *)
Definition write_fails (writable : string -> bool) (e : event) : bool :=
  match e with
  | EvGet _ _ => false
  | EvSaveResponse _ filename => negb (writable filename)
  | EvSaveExtracted _ filename => negb (writable filename)
  end.

Fixpoint until_failure (writable : string -> bool) (events : list event)
  : list event * bool :=
  match events with
  | [] => ([], false)
  | e :: rest =>
      if write_fails writable e then ([], true)
      else let (done, failed) := until_failure writable rest in
           (e :: done, failed)
  end.

(** [trace'] continues [trace] and ends with the write of the record
    [r]. *)
Definition written_last (trace trace' : list event) (r : extraction) : Prop :=
  exists earlier filename,
    trace' = trace ++ earlier ++ [EvSaveExtracted r filename].

(** The requests [sample_extractor] builds for post 20, and transports that
    answer every request with one document. *)
Definition sample_request (shape : endpoint) : Process.request :=
  Process.mk_request
    (JStr (match shape with
           | TweetDetail => "https://x.test/TweetDetail"
           | TweetResultByRestId => "https://x.test/TweetResultByRestId"
           end))
    (JObj [("authorization", JStr "Bearer B"); ("x-csrf-token", JStr "C")])
    (JObj [("auth_token", JStr "A"); ("ct0", JStr "C")])
    (sample_str
       (match shape with
        | TweetDetail =>
            JObj [("focalTweetId", JStr "20"); ("withVoice", JBool true)]
        | TweetResultByRestId =>
            JObj [("withCommunity", JBool false); ("tweetId", JStr "20")]
        end))
    (sample_str
       (match shape with
        | TweetDetail => JObj [("f", JBool true)]
        | TweetResultByRestId => JObj []
        end))
    (sample_str (JObj [])).

Definition answer (response_data : json) (req : Process.request) : http_reply :=
  Response 200 (Some response_data).

(** A configuration without the templates of the secondary shape. *)
Definition primary_only_config : json :=
  JObj [("auth", JObj [("auth_token", JStr "A"); ("csrf_token", JStr "C")]);
        ("headers", JObj []);
        ("api_endpoints",
         JObj [("tweet_detail", JStr "https://x.test/TweetDetail");
               ("tweet_result", JStr "https://x.test/TweetResultByRestId")]);
        ("tweet_detail_variables", JObj []);
        ("tweet_detail_features", JObj []);
        ("tweet_detail_field_toggles", JObj [])].

Definition primary_only_extractor : Process.extractor :=
  Process.mk_extractor primary_only_config (JStr "A") (JStr "C")
    (JObj [("x-csrf-token", JStr "C")])
    (JObj [("auth_token", JStr "A"); ("ct0", JStr "C")]).

(** A post whose author's follower count came as a string. *)
Definition string_count_tweet : json :=
  JObj [("__typename", JStr "Tweet");
        ("rest_id", JStr "20");
        ("core",
         JObj [("user_results",
                JObj [("result",
                       JObj [("legacy",
                              JObj [("followers_count", JStr "12")])])])])].

(** * Lemmas *)

Section ResultMonad.

Context {A B : Type}.

Lemma bind_ok (m : result A) (k : A -> result B) (b : B) :
  bind m k = Ok b -> exists a, m = Ok a /\ k a = Ok b.
Proof.
  destruct m as [a|e]; simpl; intros H; [eauto | discriminate].
Qed.

Lemma bind_raise (m : result A) (k : A -> result B) (e : exn) :
  m = Raise e -> bind m k = Raise e.
Proof. intros ->. reflexivity. Qed.

End ResultMonad.

Lemma get_obj (fields : list (string * json)) (key : string) (default : json) :
  get (JObj fields) key default = Ok (field fields key default).
Proof. unfold get, field. destruct (lookup key fields); reflexivity. Qed.

Lemma get_ok (d : json) (key : string) (default v : json) :
  get d key default = Ok v ->
  exists fields, d = JObj fields /\ v = field fields key default.
Proof.
  destruct d; try discriminate. rewrite get_obj. intros [= <-]. eauto.
Qed.

Lemma index_ok (d : json) (key : string) (v : json) :
  index d key = Ok v -> exists fields, d = JObj fields /\ lookup key fields = Some v.
Proof.
  destruct d; try discriminate. simpl.
  destruct (lookup key fields) eqn:E; [intros [= <-]; eauto | discriminate].
Qed.

Lemma field_present (fields : list (string * json)) (key : string) (default v : json) :
  lookup key fields = Some v -> field fields key default = v.
Proof. unfold field. intros ->. reflexivity. Qed.

Lemma field_absent (fields : list (string * json)) (key : string) (default : json) :
  lookup key fields = None -> field fields key default = default.
Proof. unfold field. intros ->. reflexivity. Qed.

(** One [get] of a chain: either the receiver is already a dict, or it is
    whatever an earlier [get] found, and it has to be a dict. *)
Ltac get_step H :=
  lazymatch type of H with
  | bind (get (JObj ?f) ?k ?d) _ = Ok _ =>
      rewrite (get_obj f k d) in H; cbn [bind] in H
  | bind (get ?x ?k ?d) _ = Ok _ =>
      let E := fresh "E" in
      destruct x eqn:E; try (cbn [bind get] in H; discriminate H)
  end.

Lemma media_entry_ok (media : json) (item : Media.t) :
  media_entry media = Ok item ->
  exists fields, media = JObj fields /\ item = media_item fields.
Proof.
  unfold media_entry. intros H.
  repeat get_step H. injection H as <-. eauto.
Qed.

Lemma media_entry_obj (fields : list (string * json)) :
  media_entry (JObj fields) = Ok (media_item fields).
Proof. unfold media_entry. rewrite !get_obj. reflexivity. Qed.

(** The media loop maps the source list position by position. *)
Lemma media_loop_ok (media_list : list json) (items : list Media.t) :
  media_loop media_list = Ok items ->
  Forall2 (fun src item =>
             exists fields, src = JObj fields /\ item = media_item fields)
          media_list items.
Proof.
  revert items. induction media_list as [|m rest IH]; simpl; intros items H.
  - injection H as <-. constructor.
  - apply bind_ok in H as (item & Hitem & H).
    apply bind_ok in H as (rest' & Hrest & H).
    injection H as <-. constructor; auto using media_entry_ok.
Qed.

Lemma media_loop_objs (sources : list (list (string * json))) :
  media_loop (map JObj sources) = Ok (map media_item sources).
Proof.
  induction sources as [|s rest IH]; simpl; [reflexivity|].
  rewrite media_entry_obj. cbn [bind]. rewrite IH. reflexivity.
Qed.

(** What a successful call of [_extract_tweet_data] read, and what it
    returned. *)
Lemma extract_tweet_data_inv (now : string) (tweet_data : json) (r : extraction) :
  _extract_tweet_data now tweet_data = Ok r ->
  exists post legacy user_result user_legacy views media_list items media,
    tweet_data = JObj post /\
    legacy_of tweet_data = Ok (JObj legacy) /\
    user_result_of tweet_data = Ok (JObj user_result) /\
    user_legacy_of tweet_data = Ok (JObj user_legacy) /\
    views_of tweet_data = Ok (JObj views) /\
    media_list_of tweet_data = Ok media_list /\
    iter media_list = Ok items /\
    media_loop items = Ok media /\
    r = mapped now post legacy user_result user_legacy views media.
Proof.
  unfold _extract_tweet_data. intros H.
  repeat get_step H.
  destruct (iter _) as [items|] eqn:Hiter in H; [cbn [bind] in H | discriminate H].
  destruct (media_loop items) as [media|] eqn:Hloop in H;
    [cbn [bind] in H | discriminate H].
  repeat get_step H.
  injection H as <-.
  unfold legacy_of, user_result_of, user_legacy_of, user_result_of, views_of,
    media_list_of, legacy_of.
  repeat (rewrite get_obj
          || match goal with
             | Hx : field _ _ _ = JObj _ |- _ => rewrite Hx
             end
          || cbn [bind]).
  do 8 eexists.
  repeat (split; [reflexivity || eassumption|]). reflexivity.
Qed.

(** Conversely, when every container the function reads is a dict (or is
    missing, and then read as [{}]) and the media list iterates over dicts,
    the function returns, whatever leaves are missing. *)
Lemma extract_tweet_data_complete (now : string)
  (post legacy user_result user_legacy views : list (string * json))
  (media_list : json) (items : list json) (media : list Media.t) :
  legacy_of (JObj post) = Ok (JObj legacy) ->
  user_result_of (JObj post) = Ok (JObj user_result) ->
  user_legacy_of (JObj post) = Ok (JObj user_legacy) ->
  views_of (JObj post) = Ok (JObj views) ->
  media_list_of (JObj post) = Ok media_list ->
  iter media_list = Ok items ->
  media_loop items = Ok media ->
  _extract_tweet_data now (JObj post)
  = Ok (mapped now post legacy user_result user_legacy views media).
Proof.
  unfold legacy_of, user_legacy_of, views_of, media_list_of, legacy_of.
  intros Hl Hur Hul Hv Hm Hiter Hloop.
  rewrite Hur in Hul. rewrite Hl in Hm. cbn [bind] in Hul, Hm.
  unfold user_result_of in Hur.
  apply bind_ok in Hur as (core & Hcore & Hur).
  apply bind_ok in Hur as (user_results & Hurs & Hur).
  apply bind_ok in Hm as (ee & Hee & Hm).
  unfold _extract_tweet_data.
  rewrite Hl, Hcore; cbn [bind]. rewrite Hurs; cbn [bind].
  rewrite Hur; cbn [bind]. rewrite Hul; cbn [bind].
  rewrite Hv; cbn [bind]. rewrite Hee; cbn [bind]. rewrite Hm; cbn [bind].
  rewrite Hiter; cbn [bind]. rewrite Hloop; cbn [bind].
  repeat (rewrite get_obj; cbn [bind]).
  reflexivity.
Qed.

(** A result object of type [Tweet] is a dict with a type name, so it is
    truthy: [if not focal_tweet] never fires on one. *)
Lemma is_tweet_true (result : json) :
  is_tweet result = Ok true ->
  exists fields, result = JObj fields /\
                 lookup "__typename" fields = Some (JStr "Tweet").
Proof.
  unfold is_tweet. intros H.
  apply bind_ok in H as (ty & Hty & H). injection H as H.
  destruct result; try discriminate Hty.
  exists fields. split; [reflexivity|].
  unfold get in Hty. destruct (lookup "__typename" fields) as [v|];
    injection Hty as <-; [|discriminate H].
  destruct v; try discriminate H. simpl in H.
  apply String.eqb_eq in H. now subst.
Qed.

Lemma is_tweet_truthy (result : json) :
  is_tweet result = Ok true -> truthy result = true.
Proof.
  intros H. apply is_tweet_true in H as (fields & -> & H).
  destruct fields; [discriminate H | reflexivity].
Qed.

(** One turn of the entry loop, read back. *)
Lemma entry_focal_some (entry result : json) :
  entry_focal entry = Ok (Some result) <-> post_entry entry result.
Proof.
  unfold entry_focal, post_entry, marked. split.
  - intros H.
    apply bind_ok in H as (entry_id & Hid & H).
    apply bind_ok in H as (b & Hb & H).
    destruct b; [|discriminate H].
    apply bind_ok in H as (res & Hres & H).
    apply bind_ok in H as (tw & Htw & H).
    destruct tw; [|discriminate H]. injection H as <-. eauto.
  - intros ((entry_id & Hid & Hb) & Hres & Htw).
    rewrite Hid; cbn [bind]. rewrite Hb; cbn [bind].
    rewrite Hres; cbn [bind]. rewrite Htw; reflexivity.
Qed.

Lemma entry_focal_none (entry : json) :
  entry_focal entry = Ok None <-> non_post_entry entry.
Proof.
  unfold entry_focal, non_post_entry, marked. split.
  - intros H.
    apply bind_ok in H as (entry_id & Hid & H).
    apply bind_ok in H as (b & Hb & H).
    destruct b; [|left; eauto].
    apply bind_ok in H as (res & Hres & H).
    apply bind_ok in H as (tw & Htw & H).
    destruct tw; [discriminate H|]. right. eauto 8.
  - intros [(entry_id & Hid & Hb) | ((entry_id & Hid & Hb) & res & Hres & Htw)];
      rewrite Hid; cbn [bind]; rewrite Hb; cbn [bind]; [reflexivity|].
    rewrite Hres; cbn [bind]. rewrite Htw; reflexivity.
Qed.

(** The entry loop stops at the first turn that sets [focal_tweet]. *)
Lemma find_focal_stops (before after : list json) (entry result : json) :
  Forall non_post_entry before ->
  post_entry entry result ->
  find_focal (before ++ entry :: after) = Ok (Some result).
Proof.
  intros Hbefore Hentry. induction Hbefore as [|e before He _ IH]; simpl.
  - apply entry_focal_some in Hentry. rewrite Hentry. reflexivity.
  - apply entry_focal_none in He. rewrite He. exact IH.
Qed.

Lemma find_focal_none (entries : list json) :
  Forall non_post_entry entries -> find_focal entries = Ok None.
Proof.
  induction 1 as [|e entries He _ IH]; simpl; [reflexivity|].
  apply entry_focal_none in He. rewrite He. exact IH.
Qed.

Lemma find_focal_some (entries : list json) (result : json) :
  find_focal entries = Ok (Some result) ->
  exists before entry after,
    entries = before ++ entry :: after /\
    Forall non_post_entry before /\
    post_entry entry result.
Proof.
  induction entries as [|e entries IH]; simpl; [discriminate|].
  intros H. apply bind_ok in H as (focal & He & H).
  destruct focal as [res|].
  - injection H as <-. exists [], e, entries.
    split; [reflexivity|]. split; [constructor|]. now apply entry_focal_some.
  - destruct (IH H) as (before & entry & after & -> & Hb & Hp).
    exists (e :: before), entry, after.
    split; [reflexivity|]. split; [|exact Hp].
    constructor; [now apply entry_focal_none | exact Hb].
Qed.

(** [extract_from_tweet_detail] in terms of the entry list it scans. *)
Lemma detail_body_scanned (now : string) (response_data : json) :
  extract_from_tweet_detail_body now response_data
  = (entries <- scanned_entries response_data ;;
     focal_tweet <- find_focal entries ;;
     match focal_tweet with
     | None => Ok None
     | Some focal_tweet =>
         if negb (truthy focal_tweet) then Ok None
         else extracted <- _extract_tweet_data now focal_tweet ;;
              Ok (Some extracted)
     end).
Proof.
  unfold extract_from_tweet_detail_body, scanned_entries.
  destruct (detail_instructions response_data) as [instructions|];
    [cbn [bind] | reflexivity].
  destruct (iter instructions) as [instruction_list|]; [cbn [bind] | reflexivity].
  destruct (find_entries instruction_list) as [[entries|]|];
    [cbn [bind] | reflexivity ..].
  destruct (negb (truthy entries)); [reflexivity|].
  destruct (iter entries); reflexivity.
Qed.

(** The primary path, from the entry the loop stops at. *)
Lemma detail_from_entries (now : string) (response_data : json)
  (before after : list json) (entry result : json) :
  scanned_entries response_data = Ok (before ++ entry :: after) ->
  Forall non_post_entry before ->
  post_entry entry result ->
  extract_from_tweet_detail now response_data
  = try_or_none (extracted <- _extract_tweet_data now result ;;
                 Ok (Some extracted)).
Proof.
  intros Hscan Hbefore Hentry.
  unfold extract_from_tweet_detail. rewrite detail_body_scanned, Hscan.
  cbn [bind]. rewrite (find_focal_stops _ _ _ _ Hbefore Hentry). cbn [bind].
  destruct Hentry as (_ & _ & Htw). rewrite (is_tweet_truthy _ Htw).
  reflexivity.
Qed.

Lemma detail_no_post (now : string) (response_data : json) (entries : list json) :
  scanned_entries response_data = Ok entries ->
  Forall non_post_entry entries ->
  extract_from_tweet_detail now response_data = None.
Proof.
  intros Hscan Hall.
  unfold extract_from_tweet_detail. rewrite detail_body_scanned, Hscan.
  cbn [bind]. rewrite (find_focal_none _ Hall). reflexivity.
Qed.

(** A record returned by the primary path is the whole mapping of the result
    object of the first post entry of the scanned list. *)
Lemma detail_some_inv (now : string) (response_data : json) (r : extraction) :
  extract_from_tweet_detail now response_data = Some r ->
  exists before entry after result,
    scanned_entries response_data = Ok (before ++ entry :: after) /\
    Forall non_post_entry before /\
    post_entry entry result /\
    _extract_tweet_data now result = Ok r.
Proof.
  unfold extract_from_tweet_detail. rewrite detail_body_scanned.
  destruct (scanned_entries response_data) as [entries|]; [cbn [bind] | discriminate].
  destruct (find_focal entries) as [[result|]|] eqn:Hfocal;
    cbn [bind try_or_none]; try discriminate.
  destruct (find_focal_some _ _ Hfocal) as (before & entry & after & -> & Hb & Hp).
  destruct (negb (truthy result)); [discriminate|].
  destruct (_extract_tweet_data now result) as [x|] eqn:Hx; [|discriminate].
  cbn [bind try_or_none]. intros [= <-]. eauto 10.
Qed.

(** The same for the secondary path. *)
Lemma result_some_inv (now : string) (response_data : json) (r : extraction) :
  extract_from_tweet_result now response_data = Some r <->
  exists result,
    result_target response_data = Ok result /\
    is_tweet result = Ok true /\
    _extract_tweet_data now result = Ok r.
Proof.
  unfold extract_from_tweet_result, extract_from_tweet_result_body, result_target.
  destruct (index response_data "data") as [data|]; cbn [bind try_or_none];
    [|split; [discriminate | intros (? & ? & _); discriminate]].
  destruct (index data "tweetResult") as [tweet_result|];
    cbn [bind try_or_none];
    [|split; [discriminate | intros (? & ? & _); discriminate]].
  destruct tweet_result;
    try (cbn; split; [discriminate | intros (? & ? & _); discriminate]).
  rewrite get_obj. cbn [bind]. unfold index, field.
  destruct (lookup "result" fields) as [result|].
  - destruct (is_tweet result) as [[|]|] eqn:Htw; cbn [bind try_or_none].
    + destruct (_extract_tweet_data now result) as [x|] eqn:Hx;
        cbn [bind try_or_none].
      * split; [intros [= <-]; eauto | intros (? & ? & _ & ?); congruence].
      * split; [discriminate | intros (? & ? & _ & ?); congruence].
    + split; [discriminate | intros (? & ? & ? & _); congruence].
    + split; [discriminate | intros (? & ? & ? & _); congruence].
  - cbn. split; [discriminate | intros (? & ? & _); discriminate].
Qed.

(** Both paths, read back through [located]. *)
Lemma extract_some_inv (shape : endpoint) (now : string) (response_data : json)
  (r : extraction) :
  extract shape now response_data = Some r ->
  exists result,
    located shape response_data result /\
    is_tweet result = Ok true /\
    _extract_tweet_data now result = Ok r.
Proof.
  destruct shape; simpl; intros H.
  - apply detail_some_inv in H
      as (before & entry & after & result & Hscan & _ & (Hm & Hres & Htw) & Hx).
    exists result. repeat split; try assumption.
    eapply located_detail; eauto. apply in_elt.
  - apply result_some_inv in H as (result & Ht & Htw & Hx).
    exists result. repeat split; try assumption. now constructor.
Qed.

(** A falsy response has no [data] key to start from. *)
Lemma falsy_no_result (shape : endpoint) (now : string) (response_data : json) :
  truthy response_data = false -> extract shape now response_data = None.
Proof.
  destruct shape, response_data as [| | | | | |fields]; try reflexivity;
    destruct fields; (reflexivity || discriminate).
Qed.

(** The clock only stamps the record. *)
Lemma extract_tweet_data_clock (now now' : string) (tweet_data : json) :
  match _extract_tweet_data now tweet_data,
        _extract_tweet_data now' tweet_data with
  | Ok r, Ok r' => untimed r = untimed r' /\ extracted_at r' = now'
  | Raise _, Raise _ => True
  | _, _ => False
  end.
Proof.
  assert (forward : forall n n' r,
             _extract_tweet_data n tweet_data = Ok r ->
             exists r', _extract_tweet_data n' tweet_data = Ok r' /\
                        untimed r = untimed r' /\ extracted_at r' = n').
  { intros n n' r H.
    apply extract_tweet_data_inv in H
      as (post & legacy & ur & ul & views & ml & items & media
          & -> & Hl & Hur & Hul & Hv & Hm & Hiter & Hloop & ->).
    eexists. split; [eapply extract_tweet_data_complete; eassumption|].
    split; reflexivity. }
  destruct (_extract_tweet_data now tweet_data) as [r|e] eqn:H.
  - destruct (forward now now' r H) as (r' & -> & Hu & Ht). auto.
  - destruct (_extract_tweet_data now' tweet_data) as [r'|e'] eqn:H'; [|exact I].
    destruct (forward now' now r' H') as (r & Hr & _). congruence.
Qed.

Lemma extract_clock (shape : endpoint) (now now' : string) (response_data : json) :
  option_map untimed (extract shape now response_data)
  = option_map untimed (extract shape now' response_data).
Proof.
  assert (Hmap : forall t,
             option_map untimed
               (try_or_none (x <- _extract_tweet_data now t ;; Ok (Some x)))
             = option_map untimed
                 (try_or_none (x <- _extract_tweet_data now' t ;; Ok (Some x)))).
  { intros t. pose proof (extract_tweet_data_clock now now' t) as H.
    destruct (_extract_tweet_data now t), (_extract_tweet_data now' t);
      cbn [bind try_or_none option_map].
    - destruct H as [-> _]. reflexivity.
    - contradiction.
    - contradiction.
    - reflexivity. }
  destruct shape; simpl.
  - unfold extract_from_tweet_detail. rewrite !detail_body_scanned.
    destruct (scanned_entries response_data) as [entries|]; cbn [bind].
    + destruct (find_focal entries) as [[t|]|]; cbn [bind].
      * destruct (negb (truthy t)); [reflexivity | apply Hmap].
      * reflexivity.
      * reflexivity.
    + reflexivity.
  - unfold extract_from_tweet_result, extract_from_tweet_result_body.
    destruct (index response_data "data") as [data|]; cbn [bind].
    + destruct (index data "tweetResult") as [tr|]; cbn [bind].
      * destruct (get tr "result" empty_dict) as [res|]; cbn [bind].
        -- destruct (is_tweet res) as [[|]|]; cbn [bind].
           ++ destruct (index tr "result") as [t|]; cbn [bind].
              ** apply Hmap.
              ** reflexivity.
           ++ reflexivity.
           ++ reflexivity.
        -- reflexivity.
      * reflexivity.
    + reflexivity.
Qed.

Lemma extract_some_clock (shape : endpoint) (now : string) (response_data : json)
  (r : extraction) :
  extract shape now response_data = Some r -> extracted_at r = now.
Proof.
  intros H. apply extract_some_inv in H as (t & _ & _ & H).
  apply extract_tweet_data_inv in H
    as (? & ? & ? & ? & ? & ? & ? & ? & _ & _ & _ & _ & _ & _ & _ & _ & ->).
  reflexivity.
Qed.

Lemma leaves_of_mapped (now : string)
  (post legacy user_result user_legacy views : list (string * json))
  (media : list Media.t) :
  Forall copied_or_default
    (leaves post legacy user_result user_legacy views
       (mapped now post legacy user_result user_legacy views media)).
Proof.
  unfold leaves.
  repeat (apply Forall_cons || apply Forall_nil);
    (split; cbn [leaf_key leaf_source leaf_value kind_of_leaf default_of];
     [intros v Hv; now apply field_present | intros Hv; now apply field_absent]).
Qed.

Lemma media_items_copied (sources : list (list (string * json))) :
  Forall2 media_copied_or_absent sources (map media_item sources).
Proof.
  induction sources as [|fields rest IH]; simpl; constructor; [|exact IH].
  unfold media_copied_or_absent, media_item; cbn.
  repeat split; intros H; now apply field_absent.
Qed.

(** * The object-to-record mapping *)

(** C5, as the code has it.  For every post object whose containers
    (legacy, core -> user_results -> result, its legacy, views,
    extended_entities) are dicts or are missing, and whose media list is a
    list of dicts or is missing, the mapping returns a record, whatever leaves
    are missing.  In that record every leaf that is present is copied, and a
    missing leaf reads as the empty string (strings of the two legacy
    objects), as 0 (counts), as false (the two flags), as an absent value
    (the view count) and, for the two identifiers and the three keys of a
    media item, as an absent value too, not as the empty string. *)
Theorem mapping_defaults (now : string)
  (post legacy user_result user_legacy views : list (string * json))
  (sources : list (list (string * json))) :
  legacy_of (JObj post) = Ok (JObj legacy) ->
  user_result_of (JObj post) = Ok (JObj user_result) ->
  user_legacy_of (JObj post) = Ok (JObj user_legacy) ->
  views_of (JObj post) = Ok (JObj views) ->
  media_list_of (JObj post) = Ok (JArr (map JObj sources)) ->
  exists r,
    _extract_tweet_data now (JObj post) = Ok r /\
    Forall copied_or_default
      (leaves post legacy user_result user_legacy views r) /\
    Forall2 media_copied_or_absent sources (TweetInfo.media (tweet r)).
Proof.
  intros Hl Hur Hul Hv Hm.
  exists (mapped now post legacy user_result user_legacy views
            (map media_item sources)).
  split; [|split].
  - eapply extract_tweet_data_complete; eauto using media_loop_objs.
    reflexivity.
  - apply leaves_of_mapped.
  - apply media_items_copied.
Qed.

(** The post object with every optional leaf missing. *)
Lemma mapping_defaults_bare_tweet :
  exists r,
    _extract_tweet_data noon (JObj bare_tweet) = Ok r /\
    Forall copied_or_default (leaves bare_tweet [] [] [] [] r) /\
    Forall2 media_copied_or_absent [] (TweetInfo.media (tweet r)).
Proof.
  apply (mapping_defaults noon bare_tweet [] [] [] [] []); reflexivity.
Defined.

(** C5 as the spec words it fails on the identifiers: with no [rest_id] in
    the post object and none in the author's result object, both identifiers
    of the record are [None], not the empty string. *)
Lemma absent_identifier_is_not_empty :
  lookup "rest_id" bare_tweet = None /\
  exists r,
    _extract_tweet_data noon (JObj bare_tweet) = Ok r /\
    TweetInfo.tweet_id (tweet r) = JNull /\
    UserInfo.user_id (user r) = JNull /\
    TweetInfo.tweet_id (tweet r) <> JStr "" /\
    UserInfo.user_id (user r) <> JStr "".
Proof.
  split; [reflexivity|].
  eexists. split; [vm_compute; reflexivity|].
  cbn. repeat split; discriminate.
Qed.

(** The record of [bare_tweet], field by field. *)
Example bare_tweet_record :
  _extract_tweet_data noon (JObj bare_tweet)
  = Ok {| extracted_at := noon;
          tweet := TweetInfo.mk JNull (JStr "") (JStr "") (JInt 0) (JInt 0)
                     (JInt 0) (JInt 0) (JInt 0) JNull (JStr "") (JStr "") [];
          user := UserInfo.mk JNull (JStr "") (JStr "") (JStr "") (JStr "")
                    (JInt 0) (JInt 0) (JInt 0) (JStr "") (JBool false)
                    (JBool false) (JStr "") (JStr "") (JStr "") |}.
Proof. vm_compute. reflexivity. Qed.

(** C6.  The media of the record are the entries of
    legacy -> extended_entities -> media, one item per entry and in the
    same order, each made of the entry's [type], [media_url_https] and
    [display_url] and of nothing else; without a media list there are none. *)
Theorem media_order_preserved (now : string) (tweet_data : json) (r : extraction) :
  _extract_tweet_data now tweet_data = Ok r ->
  (forall media_list,
      media_list_of tweet_data = Ok (JArr media_list) ->
      exists sources,
        media_list = map JObj sources /\
        TweetInfo.media (tweet r) = map media_item sources /\
        length (TweetInfo.media (tweet r)) = length media_list) /\
  (media_absent tweet_data -> TweetInfo.media (tweet r) = []).
Proof.
  intros H.
  apply extract_tweet_data_inv in H
    as (post & legacy & ur & ul & views & ml & items & media
        & -> & Hl & Hur & Hul & Hv & Hm & Hiter & Hloop & ->).
  assert (Hlist : forall media_list, ml = JArr media_list ->
            exists sources, media_list = map JObj sources /\
                            media = map media_item sources).
  { intros media_list ->. injection Hiter as <-.
    apply media_loop_ok in Hloop. clear -Hloop.
    induction Hloop as [|src item srcs its (fields & -> & ->) _ (sources & -> & ->)].
    - now exists [].
    - now exists (fields :: sources). }
  split.
  - intros media_list Hml. rewrite Hm in Hml. injection Hml as ->.
    destruct (Hlist media_list eq_refl) as (sources & -> & ->).
    exists sources. cbn. now rewrite !length_map.
  - intros (legacy' & Hl' & Habs). rewrite Hl in Hl'. injection Hl' as <-.
    unfold media_list_of in Hm. rewrite Hl in Hm. cbn [bind] in Hm.
    rewrite get_obj in Hm. cbn [bind] in Hm.
    assert (ml = JArr []) as Hml.
    { destruct Habs as [Hno | (ee & Hee & Hno)].
      - rewrite (field_absent _ _ _ Hno) in Hm. now injection Hm.
      - rewrite (field_present _ _ _ _ Hee) in Hm. rewrite get_obj in Hm.
        rewrite (field_absent _ _ _ Hno) in Hm. now injection Hm. }
    destruct (Hlist [] Hml) as (sources & Hs & ->).
    destruct sources; [reflexivity | discriminate Hs].
Qed.

(** Three media entries A, B, C come out as A, B, C. *)
Lemma media_order_preserved_abc :
  exists r,
    _extract_tweet_data noon (full_tweet_object false true) = Ok r /\
    exists sources,
      [media_object "photo" "https://a"; media_object "video" "https://b";
       media_object "animated_gif" "https://c"] = map JObj sources /\
      TweetInfo.media (tweet r) = map media_item sources /\
      length (TweetInfo.media (tweet r)) = 3.
Proof.
  eexists. split; [vm_compute; reflexivity|].
  apply (proj1 (media_order_preserved noon (full_tweet_object false true) _
                  eq_refl)).
  reflexivity.
Defined.

Example media_abc_items :
  option_map (fun r => TweetInfo.media (tweet r))
    (extract_from_tweet_result noon (result_document (full_tweet_object false true)))
  = Some [Media.mk (JStr "photo") (JStr "https://a") (JStr "pic.x.com/photo");
          Media.mk (JStr "video") (JStr "https://b") (JStr "pic.x.com/video");
          Media.mk (JStr "animated_gif") (JStr "https://c")
            (JStr "pic.x.com/animated_gif")].
Proof. vm_compute. reflexivity. Qed.

(** C7.  [verified] is read from the author's legacy object and
    [is_blue_verified] from the author's result object, each with default
    false, and neither read looks at the other dict. *)
Theorem verification_flags_independent (now : string) (tweet_data : json)
  (r : extraction) (user_result user_legacy : list (string * json)) :
  _extract_tweet_data now tweet_data = Ok r ->
  user_result_of tweet_data = Ok (JObj user_result) ->
  user_legacy_of tweet_data = Ok (JObj user_legacy) ->
  UserInfo.verified (user r) = field user_legacy "verified" (JBool false) /\
  UserInfo.is_blue_verified (user r)
  = field user_result "is_blue_verified" (JBool false).
Proof.
  intros H Hur Hul.
  apply extract_tweet_data_inv in H
    as (post & legacy & ur & ul & views & ml & items & media
        & -> & _ & Hur' & Hul' & _ & _ & _ & _ & ->).
  rewrite Hur in Hur'. rewrite Hul in Hul'.
  injection Hur' as <-. injection Hul' as <-. split; reflexivity.
Qed.

(** Legacy [verified] false with [is_blue_verified] true. *)
Lemma verification_flags_false_true :
  exists r,
    _extract_tweet_data noon (full_tweet_object false true) = Ok r /\
    UserInfo.verified (user r) = JBool false /\
    UserInfo.is_blue_verified (user r) = JBool true.
Proof.
  eexists. split; [vm_compute; reflexivity|].
  apply (verification_flags_independent noon (full_tweet_object false true) _
           [("rest_id", JStr "44196397"); ("is_blue_verified", JBool true);
            ("legacy", JObj [("screen_name", JStr "alice");
                             ("verified", JBool false);
                             ("followers_count", JInt 12)])]
           [("screen_name", JStr "alice"); ("verified", JBool false);
            ("followers_count", JInt 12)]);
    reflexivity.
Defined.

(** The reverse combination, and both paths agreeing on it. *)
Example verification_flags_true_false :
  option_map (fun r => (UserInfo.verified (user r),
                        UserInfo.is_blue_verified (user r)))
    (extract_from_tweet_result noon (result_document (full_tweet_object true false)))
  = Some (JBool true, JBool false) /\
  option_map (fun r => (UserInfo.verified (user r),
                        UserInfo.is_blue_verified (user r)))
    (extract_from_tweet_detail noon
       (detail_document [timeline_entry "tweet-1" (full_tweet_object true false)]))
  = Some (JBool true, JBool false).
Proof. split; vm_compute; reflexivity. Qed.

(** * The shape-specific locators *)

Lemma is_tweet_discriminant (result : json) :
  is_tweet result = Ok true -> type_discriminant result = Some (JStr "Tweet").
Proof. intros H. now apply is_tweet_true in H as (fields & -> & H). Qed.

(** C2.  On either path a record comes out only of a located object whose
    [__typename] is ["Tweet"], and it is the whole mapping of that object;
    a document in which no located object has that type name (there is
    none, or each has another type name or none) gives no result. *)
Theorem only_tweets_are_extracted (shape : endpoint) (now : string)
  (response_data : json) :
  (forall r,
      extract shape now response_data = Some r ->
      exists result,
        located shape response_data result /\
        type_discriminant result = Some (JStr "Tweet") /\
        _extract_tweet_data now result = Ok r) /\
  ((forall result,
       located shape response_data result ->
       type_discriminant result <> Some (JStr "Tweet")) ->
   extract shape now response_data = None).
Proof.
  assert (Hsome : forall r,
             extract shape now response_data = Some r ->
             exists result,
               located shape response_data result /\
               type_discriminant result = Some (JStr "Tweet") /\
               _extract_tweet_data now result = Ok r).
  { intros r H. apply extract_some_inv in H as (result & Hloc & Htw & Hx).
    exists result. auto using is_tweet_discriminant. }
  split; [exact Hsome|].
  intros Hnone.
  destruct (extract shape now response_data) as [r|] eqn:H; [|reflexivity].
  destruct (Hsome r eq_refl) as (result & Hloc & Hty & _).
  now destruct (Hnone result Hloc).
Qed.

(** A post under the secondary shape, and a tombstone under it. *)
Lemma only_tweets_are_extracted_sample :
  (exists result,
      located TweetResultByRestId (result_document (tweet_object "20")) result /\
      type_discriminant result = Some (JStr "Tweet") /\
      _extract_tweet_data noon result
      = Ok (mapped noon [("__typename", JStr "Tweet"); ("rest_id", JStr "20")]
              [] [] [] [] [])) /\
  extract TweetResultByRestId noon (result_document tombstone_object) = None.
Proof.
  split.
  - apply (proj1 (only_tweets_are_extracted TweetResultByRestId noon
                    (result_document (tweet_object "20")))).
    vm_compute. reflexivity.
  - apply (proj2 (only_tweets_are_extracted TweetResultByRestId noon
                    (result_document tombstone_object))).
    intros result Hloc. inversion Hloc as [|d t Ht]; subst.
    vm_compute in Ht. injection Ht as <-. discriminate.
Defined.

Example tombstones_give_nothing :
  extract_from_tweet_detail noon
    (detail_document [timeline_entry "tweet-1" tombstone_object]) = None /\
  extract_from_tweet_result noon (result_document tombstone_object) = None /\
  extract_from_tweet_result noon
    (JObj [("data", JObj [("tweetResult", JObj [])])]) = None /\
  extract_from_tweet_detail noon (detail_document []) = None.
Proof. repeat split; vm_compute; reflexivity. Qed.

(** C3 as the spec words it fails: the first entry with the marker carries
    a tombstone, and extraction goes on to the next entry and returns its
    record. *)
Lemma first_marked_entry_is_not_final :
  let first := timeline_entry "tweet-1" tombstone_object in
  let second := timeline_entry "tweet-2" (tweet_object "2") in
  let response_data := detail_document [first; second] in
  scanned_entries response_data = Ok [first; second] /\
  marked first true /\
  entry_result first = Ok tombstone_object /\
  is_tweet tombstone_object = Ok false /\
  extract_from_tweet_detail noon response_data
  = Some (mapped noon [("__typename", JStr "Tweet"); ("rest_id", JStr "2")]
            [] [] [] [] []) /\
  extract_from_tweet_detail noon response_data <> None.
Proof.
  cbv zeta. split; [vm_compute; reflexivity|].
  split; [exists (JStr "tweet-1"); split; vm_compute; reflexivity|].
  split; [vm_compute; reflexivity|].
  split; [vm_compute; reflexivity|].
  assert (H : extract_from_tweet_detail noon
                (detail_document [timeline_entry "tweet-1" tombstone_object;
                                  timeline_entry "tweet-2" (tweet_object "2")])
              = Some (mapped noon
                        [("__typename", JStr "Tweet"); ("rest_id", JStr "2")]
                        [] [] [] [] [])) by (vm_compute; reflexivity).
  split; [exact H | rewrite H; discriminate].
Qed.

(** C3, as the code has it.  The loop passes over the entries without the
    marker and over those whose result object is not a [Tweet]; it stops at
    the first entry with the marker whose result object is a [Tweet] and
    extraction descends from that one; what follows it in the list is not
    looked at, so two documents that agree up to that entry give the same
    outcome; when the loop passes over every entry there is no result. *)
Theorem first_post_entry_is_final (now : string) (response_data : json)
  (entries : list json) :
  scanned_entries response_data = Ok entries ->
  (Forall non_post_entry entries ->
   extract_from_tweet_detail now response_data = None) /\
  (forall before entry after result,
      entries = before ++ entry :: after ->
      Forall non_post_entry before ->
      post_entry entry result ->
      find_focal entries = Ok (Some result) /\
      forall response_data' after',
        scanned_entries response_data' = Ok (before ++ entry :: after') ->
        extract_from_tweet_detail now response_data'
        = extract_from_tweet_detail now response_data).
Proof.
  intros Hscan. split.
  - now apply detail_no_post.
  - intros before entry after result -> Hbefore Hentry. split.
    + now apply find_focal_stops.
    + intros response_data' after' Hscan'.
      rewrite (detail_from_entries now _ _ _ _ _ Hscan' Hbefore Hentry).
      rewrite (detail_from_entries now _ _ _ _ _ Hscan Hbefore Hentry).
      reflexivity.
Qed.

Lemma timeline_entry_marked (entry_id : string) (result : json) :
  substring_of "tweet-" entry_id = true ->
  marked (timeline_entry entry_id result) true.
Proof. intros H. exists (JStr entry_id). split; [reflexivity | cbn; now rewrite H]. Qed.

(** A tombstone, then a post, then an entry that is no dict at all. *)
Lemma first_post_entry_is_final_sample :
  find_focal [timeline_entry "tweet-1" tombstone_object;
              timeline_entry "tweet-2" (tweet_object "2"); JNull]
  = Ok (Some (tweet_object "2")) /\
  forall response_data' after',
    scanned_entries response_data'
    = Ok ([timeline_entry "tweet-1" tombstone_object]
          ++ timeline_entry "tweet-2" (tweet_object "2") :: after') ->
    extract_from_tweet_detail noon response_data'
    = extract_from_tweet_detail noon
        (detail_document [timeline_entry "tweet-1" tombstone_object;
                          timeline_entry "tweet-2" (tweet_object "2"); JNull]).
Proof.
  apply (proj2 (first_post_entry_is_final noon
                  (detail_document [timeline_entry "tweet-1" tombstone_object;
                                    timeline_entry "tweet-2" (tweet_object "2");
                                    JNull])
                  _ eq_refl)
           [timeline_entry "tweet-1" tombstone_object]
           (timeline_entry "tweet-2" (tweet_object "2")) [JNull]
           (tweet_object "2") eq_refl).
  - constructor; [|constructor]. right.
    split; [now apply timeline_entry_marked|].
    exists tombstone_object. split; reflexivity.
  - split; [now apply timeline_entry_marked | split; reflexivity].
Defined.

(** C4.  Entries that lack the marker or whose result object is not a
    [Tweet] are passed over, and the record is the mapping of the result
    object of the first entry that has the marker and a [Tweet]. *)
Theorem first_post_entry_wins (now : string) (response_data : json)
  (before after : list json) (entry result : json) (r : extraction) :
  scanned_entries response_data = Ok (before ++ entry :: after) ->
  Forall non_post_entry before ->
  post_entry entry result ->
  _extract_tweet_data now result = Ok r ->
  extract_from_tweet_detail now response_data = Some r.
Proof.
  intros Hscan Hbefore Hentry Hr.
  rewrite (detail_from_entries now _ _ _ _ _ Hscan Hbefore Hentry), Hr.
  reflexivity.
Qed.

(** [non-post entry; post entry X; post entry Y] gives X's record. *)
Lemma first_post_entry_wins_xy :
  extract_from_tweet_detail noon
    (detail_document [timeline_entry "cursor-top-7" (tweet_object "W");
                      timeline_entry "tweet-X" (tweet_object "X");
                      timeline_entry "tweet-Y" (tweet_object "Y")])
  = Some (mapped noon [("__typename", JStr "Tweet"); ("rest_id", JStr "X")]
            [] [] [] [] []).
Proof.
  apply (first_post_entry_wins noon _
           [timeline_entry "cursor-top-7" (tweet_object "W")]
           [timeline_entry "tweet-Y" (tweet_object "Y")]
           (timeline_entry "tweet-X" (tweet_object "X"))
           (tweet_object "X")).
  - reflexivity.
  - constructor; [|constructor]. left.
    exists (JStr "cursor-top-7"). split; reflexivity.
  - split; [now apply timeline_entry_marked | split; reflexivity].
  - reflexivity.
Defined.

(** * Failures of extraction *)

Lemma data_raise_no_result (shape : endpoint) (now : string)
  (response_data : json) (e : exn) :
  index response_data "data" = Raise e ->
  extract shape now response_data = None.
Proof.
  intros H. destruct shape; simpl.
  - unfold extract_from_tweet_detail, extract_from_tweet_detail_body,
      detail_instructions. now rewrite H.
  - unfold extract_from_tweet_result, extract_from_tweet_result_body.
    now rewrite H.
Qed.

Lemma shape_key_raise_no_result (shape : endpoint) (now : string)
  (response_data data : json) (e : exn) :
  index response_data "data" = Ok data ->
  index data (shape_key shape) = Raise e ->
  extract shape now response_data = None.
Proof.
  intros Hd H. destruct shape; simpl in *.
  - unfold extract_from_tweet_detail, extract_from_tweet_detail_body,
      detail_instructions. rewrite Hd. cbn [bind]. now rewrite H.
  - unfold extract_from_tweet_result, extract_from_tweet_result_body.
    rewrite Hd. cbn [bind]. now rewrite H.
Qed.

Lemma mapping_raise_no_result (shape : endpoint) (now : string)
  (response_data result : json) (e : exn) :
  target shape response_data result ->
  _extract_tweet_data now result = Raise e ->
  extract shape now response_data = None.
Proof.
  destruct shape; simpl; intros Ht Hx.
  - destruct Ht as (before & entry & after & Hscan & Hbefore & Hentry).
    rewrite (detail_from_entries now _ _ _ _ _ Hscan Hbefore Hentry), Hx.
    reflexivity.
  - destruct (extract_from_tweet_result now response_data) as [r|] eqn:H;
      [|reflexivity].
    apply result_some_inv in H as (result' & Ht' & _ & Hx'). congruence.
Qed.

(** C8.  Whatever the document, either path gives [None] or a whole record:
    an exception raised anywhere in the body ends as [None]; so does a
    missing or unsubscriptable [data], a missing key of the shape under it,
    a document that is a list, and an exception inside the mapping of the
    target; and a record that is returned is the complete mapping of a
    located object. *)
Theorem extraction_never_raises (shape : endpoint) (now : string)
  (response_data : json) :
  (forall e,
      extract_body shape now response_data = Raise e ->
      extract shape now response_data = None) /\
  (forall e,
      index response_data "data" = Raise e ->
      extract shape now response_data = None) /\
  (forall data e,
      index response_data "data" = Ok data ->
      index data (shape_key shape) = Raise e ->
      extract shape now response_data = None) /\
  (forall items,
      response_data = JArr items -> extract shape now response_data = None) /\
  (forall result e,
      target shape response_data result ->
      _extract_tweet_data now result = Raise e ->
      extract shape now response_data = None) /\
  (forall r,
      extract shape now response_data = Some r ->
      exists result,
        located shape response_data result /\
        _extract_tweet_data now result = Ok r).
Proof.
  split; [|split; [|split; [|split; [|split]]]].
  - intros e H. destruct shape; simpl in *.
    + unfold extract_from_tweet_detail. now rewrite H.
    + unfold extract_from_tweet_result. now rewrite H.
  - intros e. apply data_raise_no_result.
  - intros data e. apply shape_key_raise_no_result.
  - intros items ->. now apply (data_raise_no_result _ _ _ TypeError).
  - intros result e. apply mapping_raise_no_result.
  - intros r H. apply extract_some_inv in H as (result & Hloc & _ & Hx). eauto.
Qed.

(** A list where the document should be a dict; a post whose legacy object
    is [null]. *)
Lemma extraction_never_raises_sample :
  extract TweetDetail noon (JArr [JObj [("data", JNull)]]) = None /\
  extract TweetResultByRestId noon (result_document null_legacy_tweet) = None.
Proof.
  split.
  - apply (proj1 (proj2 (extraction_never_raises TweetDetail noon
                           (JArr [JObj [("data", JNull)]])))
             TypeError).
    reflexivity.
  - apply (proj1 (proj2 (proj2 (proj2 (proj2
             (extraction_never_raises TweetResultByRestId noon
                (result_document null_legacy_tweet))))))
             null_legacy_tweet AttributeError);
      reflexivity.
Defined.

Example structural_misses :
  extract_body TweetDetail noon (JObj [("data", JObj [])])
  = Raise (KeyError "threaded_conversation_with_injections_v2") /\
  extract TweetDetail noon (JObj [("data", JObj [])]) = None /\
  extract_body TweetResultByRestId noon (JObj []) = Raise (KeyError "data") /\
  extract TweetResultByRestId noon (JObj []) = None /\
  extract_body TweetDetail noon
    (detail_document [JStr "tweet-1"; timeline_entry "tweet-2" (tweet_object "2")])
  = Raise AttributeError /\
  extract TweetDetail noon
    (detail_document [JStr "tweet-1"; timeline_entry "tweet-2" (tweet_object "2")])
  = None /\
  extract_body TweetDetail noon
    (detail_document [timeline_entry "tweet-1" null_legacy_tweet;
                      timeline_entry "tweet-2" (tweet_object "2")])
  = Raise AttributeError.
Proof. repeat split; vm_compute; reflexivity. Qed.

(** * Orchestration *)

Ltac run_io :=
  cbv [fetch_and_extract extract_from_file try_tweet_detail try_tweet_result
       fetch_tweet_detail fetch_tweet_result io_bind io_ret emit when
       save_response save_extracted_data].

Section Runs.

Variable requests_get : endpoint -> string -> http_reply.
Variable now : string.

(** The first block: one read of the primary endpoint, then the write of
    the raw answer; its value is the outcome of the primary path. *)
Lemma try_tweet_detail_run (tweet_id : string) (save_raw : bool)
  (trace : list event) :
  try_tweet_detail requests_get now tweet_id save_raw trace
  = (outcome requests_get now TweetDetail tweet_id,
     trace ++ EvGet TweetDetail tweet_id
       :: saved_response save_raw
            (response_json (requests_get TweetDetail tweet_id))
            ("tweet_detail_" ++ tweet_id ++ ".json")).
Proof.
  run_io. unfold outcome, saved_response.
  destruct (response_json (requests_get TweetDetail tweet_id)) as [d|].
  - destruct (truthy d) eqn:Hd.
    + destruct save_raw; cbn [andb extract]; rewrite <- ?app_assoc;
        reflexivity.
    + rewrite (falsy_no_result TweetDetail now d Hd). reflexivity.
  - reflexivity.
Qed.

Lemma try_tweet_result_run (tweet_id : string) (save_raw : bool)
  (trace : list event) :
  try_tweet_result requests_get now tweet_id save_raw trace
  = (outcome requests_get now TweetResultByRestId tweet_id,
     trace ++ EvGet TweetResultByRestId tweet_id
       :: saved_response save_raw
            (response_json (requests_get TweetResultByRestId tweet_id))
            ("tweet_result_" ++ tweet_id ++ ".json")).
Proof.
  run_io. unfold outcome, saved_response.
  destruct (response_json (requests_get TweetResultByRestId tweet_id)) as [d|].
  - destruct (truthy d) eqn:Hd.
    + destruct save_raw; cbn [andb extract]; rewrite <- ?app_assoc;
        reflexivity.
    + rewrite (falsy_no_result TweetResultByRestId now d Hd). reflexivity.
  - reflexivity.
Qed.

(** A whole run of [fetch_and_extract]: what it returns and every event
    it adds to the trace. *)
Lemma fetch_and_extract_run (tweet_id : string) (save_raw save_extracted : bool)
  (trace : list event) :
  fetch_and_extract requests_get now tweet_id save_raw save_extracted trace
  = let primary := outcome requests_get now TweetDetail tweet_id in
    let returned :=
      match primary with
      | Some r => Some r
      | None => outcome requests_get now TweetResultByRestId tweet_id
      end in
    (returned,
     trace
     ++ (EvGet TweetDetail tweet_id
         :: saved_response save_raw
              (response_json (requests_get TweetDetail tweet_id))
              ("tweet_detail_" ++ tweet_id ++ ".json"))
     ++ match primary with
        | Some _ => []
        | None =>
            EvGet TweetResultByRestId tweet_id
            :: saved_response save_raw
                 (response_json (requests_get TweetResultByRestId tweet_id))
                 ("tweet_result_" ++ tweet_id ++ ".json")
        end
     ++ saved_extracted save_extracted returned
          ("extracted_" ++ tweet_id ++ ".json")).
Proof.
  unfold fetch_and_extract, io_bind. rewrite try_tweet_detail_run.
  cbv zeta.
  destruct (outcome requests_get now TweetDetail tweet_id) as [r|].
  - cbv [io_ret when save_extracted_data emit io_bind saved_extracted].
    destruct save_extracted; rewrite <- ?app_assoc; cbn [app];
      rewrite ?app_nil_r; reflexivity.
  - rewrite try_tweet_result_run.
    destruct (outcome requests_get now TweetResultByRestId tweet_id) as [r|];
      cbv [io_ret when save_extracted_data emit io_bind saved_extracted];
      [destruct save_extracted|]; rewrite <- ?app_assoc; cbn [app];
      rewrite ?app_nil_r; reflexivity.
Qed.

End Runs.







(** The primary answers with a tombstone, the secondary with a post. *)
Example fallback_to_tweet_result :
  fetch_and_extract tombstone_then_tweet noon "20" true true []
  = (Some (mapped noon [("__typename", JStr "Tweet"); ("rest_id", JStr "20")]
             [] [] [] [] []),
     [EvGet TweetDetail "20";
      EvSaveResponse
        (detail_document [timeline_entry "tweet-1" tombstone_object])
        "tweet_detail_20.json";
      EvGet TweetResultByRestId "20";
      EvSaveResponse (result_document (tweet_object "20")) "tweet_result_20.json";
      EvSaveExtracted
        (mapped noon [("__typename", JStr "Tweet"); ("rest_id", JStr "20")]
           [] [] [] [] [])
        "extracted_20.json"]).
Proof. vm_compute. reflexivity. Qed.



Lemma fetch_and_extract_some_inv
  (requests_get : endpoint -> string -> http_reply) (now tweet_id : string)
  (save_raw save_extracted : bool) (trace : list event) (r : extraction) :
  fst (fetch_and_extract requests_get now tweet_id save_raw save_extracted trace)
  = Some r ->
  exists shape response_data,
    response_json (requests_get shape tweet_id) = Some response_data /\
    extract shape now response_data = Some r.
Proof.
  rewrite fetch_and_extract_run. cbv zeta. cbn [fst]. unfold outcome.
  destruct (response_json (requests_get TweetDetail tweet_id)) as [d|] eqn:Hd.
  - destruct (extract TweetDetail now d) as [r'|] eqn:Hr.
    + intros [= <-]. eauto.
    + destruct (response_json (requests_get TweetResultByRestId tweet_id))
        as [d'|] eqn:Hd'; [eauto | discriminate].
  - destruct (response_json (requests_get TweetResultByRestId tweet_id))
      as [d'|] eqn:Hd'; [eauto | discriminate].
Qed.

(** C10.  Both identifiers of a returned record are read from the answer:
    [tweet_id] is the [rest_id] of the located post object and [user_id] the
    [rest_id] of its author's result object, each [None] (not the empty
    string) when the key is missing; the requested identifier is not copied
    into the record. *)
Theorem identifiers_come_from_response
  (requests_get : endpoint -> string -> http_reply) (now tweet_id : string)
  (save_raw save_extracted : bool) (trace : list event) (r : extraction) :
  fst (fetch_and_extract requests_get now tweet_id save_raw save_extracted trace)
  = Some r ->
  exists shape response_data post user_result,
    response_json (requests_get shape tweet_id) = Some response_data /\
    located shape response_data (JObj post) /\
    user_result_of (JObj post) = Ok (JObj user_result) /\
    TweetInfo.tweet_id (tweet r) = field post "rest_id" JNull /\
    UserInfo.user_id (user r) = field user_result "rest_id" JNull /\
    (lookup "rest_id" post = None -> TweetInfo.tweet_id (tweet r) = JNull) /\
    (lookup "rest_id" user_result = None -> UserInfo.user_id (user r) = JNull).
Proof.
  intros H.
  apply fetch_and_extract_some_inv in H as (shape & d & Hd & H).
  apply extract_some_inv in H as (result & Hloc & _ & H).
  apply extract_tweet_data_inv in H
    as (post & legacy & ur & ul & views & ml & items & media
        & -> & _ & Hur & _ & _ & _ & _ & _ & ->).
  exists shape, d, post, ur. cbn.
  repeat (split; [assumption || reflexivity|]).
  split; intros Hno; now apply field_absent.
Qed.

(** Post 1 is asked for and the answer carries post 20. *)
Lemma identifiers_come_from_response_sample :
  exists shape response_data post user_result,
    response_json (tombstone_then_tweet shape "1") = Some response_data /\
    located shape response_data (JObj post) /\
    user_result_of (JObj post) = Ok (JObj user_result) /\
    JStr "20" = field post "rest_id" JNull /\
    JNull = field user_result "rest_id" JNull /\
    (lookup "rest_id" post = None -> JStr "20" = JNull) /\
    (lookup "rest_id" user_result = None -> JNull = JNull).
Proof.
  apply (identifiers_come_from_response tombstone_then_tweet noon "1" true true []
           (mapped noon [("__typename", JStr "Tweet"); ("rest_id", JStr "20")]
              [] [] [] [] [])).
  vm_compute. reflexivity.
Defined.

Example requested_identifier_is_not_copied :
  option_map (fun r => TweetInfo.tweet_id (tweet r))
    (fst (fetch_and_extract tombstone_then_tweet noon "1" false false []))
  = Some (JStr "20") /\
  option_map (fun r => (TweetInfo.tweet_id (tweet r), UserInfo.user_id (user r)))
    (fst (fetch_and_extract (always (result_document (JObj bare_tweet))) noon
            "1" false false []))
  = Some (JNull, JNull).
Proof. split; vm_compute; reflexivity. Qed.

(** * Further properties of the extractor *)

Lemma result_from_target (now : string) (response_data result : json) :
  result_target response_data = Ok result ->
  is_tweet result = Ok true ->
  extract_from_tweet_result now response_data
  = try_or_none (extracted <- _extract_tweet_data now result ;;
                 Ok (Some extracted)).
Proof.
  intros Ht Htw.
  destruct (_extract_tweet_data now result) as [r|e] eqn:Hx; cbn [bind try_or_none].
  - apply result_some_inv. eauto.
  - now apply (mapping_raise_no_result TweetResultByRestId now _ result e).
Qed.

(** X1.  The timestamp of a record is the clock reading of the extraction, and
    the clock reading changes nothing else: at any other reading the same
    document gives the same record with the other timestamp. *)
Theorem record_is_stamped_with_clock (shape : endpoint) (now now' : string)
  (response_data : json) (r : extraction) :
  extract shape now response_data = Some r ->
  extracted_at r = now /\
  extract shape now' response_data
  = Some {| extracted_at := now'; tweet := tweet r; user := user r |}.
Proof.
  intros H. split; [now apply (extract_some_clock shape now response_data)|].
  pose proof (extract_clock shape now now' response_data) as Hc.
  rewrite H in Hc. cbn [option_map] in Hc.
  destruct (extract shape now' response_data) as [r'|] eqn:H';
    [|discriminate Hc].
  apply extract_some_clock in H'. injection Hc as Hc.
  destruct r as [ts tw us], r' as [ts' tw' us']. cbn in *.
  now subst.
Qed.

Lemma record_is_stamped_with_clock_sample :
  extracted_at (mapped noon [("__typename", JStr "Tweet"); ("rest_id", JStr "20")]
                  [] [] [] [] []) = noon /\
  extract TweetResultByRestId "1999-12-31T23:59:59"
    (result_document (tweet_object "20"))
  = Some {| extracted_at := "1999-12-31T23:59:59";
            tweet := tweet (mapped noon [("__typename", JStr "Tweet");
                                         ("rest_id", JStr "20")] [] [] [] [] []);
            user := user (mapped noon [("__typename", JStr "Tweet");
                                       ("rest_id", JStr "20")] [] [] [] [] []) |}.
Proof.
  apply (record_is_stamped_with_clock TweetResultByRestId noon
           "1999-12-31T23:59:59" (result_document (tweet_object "20"))).
  vm_compute. reflexivity.
Defined.

(** The first loop of the primary path stops at the first
    [TimelineAddEntries] instruction and takes its entries. *)
Lemma find_entries_first (before after : list json)
  (fields : list (string * json)) :
  Forall other_instruction before ->
  lookup "type" fields = Some (JStr "TimelineAddEntries") ->
  find_entries (before ++ JObj fields :: after)
  = Ok (Some (field fields "entries" (JArr []))).
Proof.
  intros Hbefore Hty.
  induction Hbefore as [|i before (f & -> & Hf) _ IH]; cbn [app find_entries].
  - rewrite get_obj. cbn [bind]. rewrite (field_present _ _ _ _ Hty).
    cbn [eq_str]. rewrite String.eqb_refl, get_obj. reflexivity.
  - rewrite get_obj. cbn [bind]. rewrite Hf. exact IH.
Qed.

(** X2.  Only the first [TimelineAddEntries] instruction counts: when it has no
    entries (none, or an empty list) the primary path gives no result,
    whatever instructions follow it. *)
Theorem first_add_entries_instruction_decides (now : string)
  (response_data : json) (before after : list json)
  (fields : list (string * json)) :
  detail_instructions response_data = Ok (JArr (before ++ JObj fields :: after)) ->
  Forall other_instruction before ->
  lookup "type" fields = Some (JStr "TimelineAddEntries") ->
  lookup "entries" fields = None \/ lookup "entries" fields = Some (JArr []) ->
  extract_from_tweet_detail now response_data = None.
Proof.
  intros Hd Hbefore Hty Hentries.
  unfold extract_from_tweet_detail, extract_from_tweet_detail_body.
  rewrite Hd. cbn [bind iter].
  rewrite (find_entries_first _ _ _ Hbefore Hty). cbn [bind].
  destruct Hentries as [H | H];
    [rewrite (field_absent _ _ _ H) | rewrite (field_present _ _ _ _ H)];
    reflexivity.
Qed.

(** An empty [TimelineAddEntries] instruction hides the post of a later
    one. *)
Lemma first_add_entries_instruction_decides_sample :
  extract_from_tweet_detail noon
    (instructions_document
       (JArr [JObj [("type", JStr "TimelineClearCache")];
              add_entries (JArr []);
              add_entries (JArr [timeline_entry "tweet-20" (tweet_object "20")])]))
  = None.
Proof.
  apply (first_add_entries_instruction_decides noon _
           [JObj [("type", JStr "TimelineClearCache")]]
           [add_entries (JArr [timeline_entry "tweet-20" (tweet_object "20")])]
           [("type", JStr "TimelineAddEntries"); ("entries", JArr [])]).
  - reflexivity.
  - constructor; [|constructor]. eexists. split; reflexivity.
  - reflexivity.
  - right. reflexivity.
Defined.

(** Iterating over anything but a list yields strings (keys or characters),
    and neither loop of the primary path gets past a string. *)
Lemma iter_ok (v : json) (l : list json) :
  iter v = Ok l ->
  v = JArr l \/ Forall (fun x => exists s, x = JStr s) l.
Proof.
  destruct v; try discriminate; intros [= <-]; [right | now left | right].
  - induction s as [|c s IH]; constructor; eauto.
  - induction fields as [|[k v] fields IH]; constructor; eauto.
Qed.

Lemma find_entries_strings (l : list json) (entries : json) :
  Forall (fun x => exists s, x = JStr s) l ->
  find_entries l <> Ok (Some entries).
Proof. intros [|x l' (s & ->) _]; discriminate. Qed.

Lemma find_focal_strings (l : list json) (result : json) :
  Forall (fun x => exists s, x = JStr s) l ->
  find_focal l <> Ok (Some result).
Proof. intros [|x l' (s & ->) _]; discriminate. Qed.

(** X3.  The primary path returns a record only when [instructions] is a list and
    the entries of its first [TimelineAddEntries] instruction are a non-empty
    list: a dict or a string in either place gives no result. *)
Theorem record_needs_entry_lists (now : string) (response_data : json)
  (r : extraction) :
  extract_from_tweet_detail now response_data = Some r ->
  exists instructions entries,
    detail_instructions response_data = Ok (JArr instructions) /\
    find_entries instructions = Ok (Some (JArr entries)) /\
    entries <> [] /\
    scanned_entries response_data = Ok entries.
Proof.
  unfold extract_from_tweet_detail, extract_from_tweet_detail_body,
    scanned_entries.
  destruct (detail_instructions response_data) as [instrs|]; [|discriminate].
  cbn [bind].
  destruct (iter instrs) as [il|] eqn:Hil; [|discriminate]. cbn [bind].
  destruct (find_entries il) as [[entries|]|] eqn:Hfe; try discriminate.
  cbn [bind].
  destruct (negb (truthy entries)); [discriminate|].
  destruct (iter entries) as [el|] eqn:Hel; [|discriminate]. cbn [bind].
  destruct (find_focal el) as [[t|]|] eqn:Hff; try discriminate.
  intros _.
  apply iter_ok in Hil as [-> | Hstr];
    [|now destruct (find_entries_strings _ entries Hstr)].
  apply iter_ok in Hel as [-> | Hstr];
    [|now destruct (find_focal_strings _ t Hstr)].
  exists il, el. repeat split; try assumption.
  intros ->. discriminate Hff.
Qed.

Lemma record_needs_entry_lists_sample :
  exists instructions entries,
    detail_instructions
      (detail_document [timeline_entry "tweet-20" (tweet_object "20")])
    = Ok (JArr instructions) /\
    find_entries instructions = Ok (Some (JArr entries)) /\
    entries <> [] /\
    scanned_entries
      (detail_document [timeline_entry "tweet-20" (tweet_object "20")])
    = Ok entries.
Proof.
  apply (record_needs_entry_lists noon
           (detail_document [timeline_entry "tweet-20" (tweet_object "20")])
           (mapped noon [("__typename", JStr "Tweet"); ("rest_id", JStr "20")]
              [] [] [] [] [])).
  vm_compute. reflexivity.
Defined.

(** Entries given as a dict keyed by entry id, not as a list. *)
Example entries_as_dict_give_nothing :
  extract_from_tweet_detail noon
    (instructions_document
       (JArr [add_entries
                (JObj [("tweet-20",
                        timeline_entry "tweet-20" (tweet_object "20"))])]))
  = None.
Proof. vm_compute. reflexivity. Qed.





Example marker_inside_identifier :
  option_map (fun r => TweetInfo.tweet_id (tweet r))
    (extract_from_tweet_detail noon
       (detail_document [timeline_entry "promoted-tweet-20-abc" (tweet_object "20");
                         timeline_entry "tweet-21" (tweet_object "21")]))
  = Some (JStr "20").
Proof. vm_compute. reflexivity. Qed.

(** X5.  Both paths hand their target to the same mapping: a post object that is
    the target of the primary path in one document and of the secondary path
    in another gives the same outcome on both. *)
Theorem paths_agree_on_post (now : string) (primary secondary result : json) :
  target TweetDetail primary result ->
  target TweetResultByRestId secondary result ->
  extract_from_tweet_detail now primary
  = extract_from_tweet_result now secondary.
Proof.
  cbn [target]. intros (before & entry & after & Hscan & Hbefore & Hentry) Ht.
  rewrite (detail_from_entries now _ _ _ _ _ Hscan Hbefore Hentry).
  destruct Hentry as (_ & _ & Htw).
  now rewrite (result_from_target now _ _ Ht Htw).
Qed.

Lemma paths_agree_on_post_sample :
  extract_from_tweet_detail noon
    (detail_document [timeline_entry "tweet-20" (full_tweet_object true true)])
  = extract_from_tweet_result noon (result_document (full_tweet_object true true)).
Proof.
  apply (paths_agree_on_post noon _ _ (full_tweet_object true true)).
  - exists [], (timeline_entry "tweet-20" (full_tweet_object true true)), [].
    split; [reflexivity|]. split; [constructor|].
    split; [now apply timeline_entry_marked | split; reflexivity].
  - reflexivity.
Defined.

Lemma get_dict (fields sub : list (string * json)) (key : string) :
  get (JObj fields) key empty_dict = Ok (JObj sub) <->
  dict_or_missing fields key = true /\ sub_dict fields key = sub.
Proof.
  rewrite get_obj. unfold field, dict_or_missing, sub_dict, empty_dict.
  destruct (lookup key fields) as [[| | | | | |f]|];
    (split;
     [intros H; inversion H; subst; split; reflexivity
     |intros [H1 H2]; (discriminate H1 || (subst; reflexivity))]).
Qed.

Lemma media_loop_dicts (items : list json) :
  (exists media, media_loop items = Ok media) <-> forallb is_dict items = true.
Proof.
  induction items as [|item items IH]; cbn [media_loop forallb].
  - split; eauto.
  - rewrite andb_true_iff, <- IH. split.
    + intros (media & H). apply bind_ok in H as (m & Hm & H).
      apply bind_ok in H as (ms & Hms & _).
      apply media_entry_ok in Hm as (f & -> & _). eauto.
    + intros (Hd & ms & Hms). destruct item; try discriminate Hd.
      rewrite media_entry_obj, Hms. cbn [bind]. eauto.
Qed.

Lemma media_runs (extended_entities : list (string * json)) :
  (exists media_list items media,
      get (JObj extended_entities) "media" (JArr []) = Ok media_list /\
      iter media_list = Ok items /\
      media_loop items = Ok media)
  <-> media_ok extended_entities = true.
Proof.
  rewrite get_obj. unfold field, media_ok.
  destruct (lookup "media" extended_entities) as [[| | | |s|items|fields]|].
  1-4: split; [intros (? & ? & ? & [= <-] & [=] & _) | discriminate].
  - split.
    + intros (? & its & ? & [= <-] & [= <-] & H).
      destruct s; [reflexivity | discriminate H].
    + intros H. apply String.eqb_eq in H as ->.
      exists (JStr ""), [], []. repeat split.
  - rewrite <- media_loop_dicts. split.
    + intros (? & ? & media & [= <-] & [= <-] & H). eauto.
    + intros (media & H). exists (JArr items), items, media. repeat split.
      exact H.
  - split.
    + intros (? & its & ? & [= <-] & [= <-] & H).
      destruct fields as [|[k v] fields]; [reflexivity | discriminate H].
    + destruct fields; [|discriminate]. intros _.
      exists (JObj []), [], []. repeat split.
  - split; [reflexivity|]. intros _. exists (JArr []), [], []. repeat split.
Qed.

(** X6.  When the mapping returns: exactly on the dicts in which each container
    on the way to a leaf (legacy, core, user_results, result, the author's
    legacy, views, extended_entities) is a dict or is missing, and the media
    list is a list of dicts (or is missing, or is an empty dict or string).
    A container that is present but [null], a list or a scalar, makes the
    mapping raise, which the two paths turn into no result. *)
Theorem mapping_returns_iff (now : string) (tweet_data : json) :
  (exists r, _extract_tweet_data now tweet_data = Ok r)
  <-> mappable tweet_data = true.
Proof.
  split.
  - intros (r & H).
    apply extract_tweet_data_inv in H
      as (post & legacy & ur & ul & views & ml & items & media
          & -> & Hl & Hur & Hul & Hv & Hm & Hiter & Hloop & _).
    unfold user_legacy_of, media_list_of in *. rewrite Hur in Hul.
    rewrite Hl in Hm. cbn [bind] in Hul, Hm.
    unfold legacy_of, views_of, user_result_of in *.
    apply bind_ok in Hur as (core & Hcore & Hur).
    apply bind_ok in Hur as (urs & Hurs & Hur).
    apply bind_ok in Hm as (ee & Hee & Hm).
    destruct (get_ok _ _ _ _ Hurs) as (cf & -> & _).
    destruct (get_ok _ _ _ _ Hur) as (ursf & -> & _).
    destruct (get_ok _ _ _ _ Hm) as (eef & -> & _).
    apply get_dict in Hl as (Hl1 & Hl2), Hcore as (Hc1 & Hc2),
      Hurs as (Hurs1 & Hurs2), Hur as (Hur1 & Hur2), Hul as (Hul1 & _),
      Hv as (Hv1 & _), Hee as (Hee1 & Hee2).
    cbn zeta beta iota delta [mappable].
    rewrite Hl2, Hc2, Hurs2, Hur2, Hee2, Hl1, Hc1, Hurs1, Hur1, Hul1, Hv1, Hee1.
    cbn [andb]. apply media_runs. exists ml, items, media. auto.
  - destruct tweet_data as [| | | | | |post]; try discriminate.
    cbn zeta beta iota delta [mappable]. rewrite !andb_true_iff.
    intros (((((((Hl & Hc) & Hurs) & Hur) & Hul) & Hv) & Hee) & Hm).
    apply media_runs in Hm as (ml & items & media & Hml & Hiter & Hloop).
    eexists.
    apply (extract_tweet_data_complete now post
             (sub_dict post "legacy")
             (sub_dict (sub_dict (sub_dict post "core") "user_results") "result")
             (sub_dict
                (sub_dict (sub_dict (sub_dict post "core") "user_results")
                   "result") "legacy")
             (sub_dict post "views") ml items media);
      try assumption.
    + now apply get_dict.
    + unfold user_result_of.
      rewrite (proj2 (get_dict post _ "core") (conj Hc eq_refl)). cbn [bind].
      rewrite (proj2 (get_dict _ _ "user_results") (conj Hurs eq_refl)).
      cbn [bind]. now apply get_dict.
    + unfold user_legacy_of, user_result_of.
      rewrite (proj2 (get_dict post _ "core") (conj Hc eq_refl)). cbn [bind].
      rewrite (proj2 (get_dict _ _ "user_results") (conj Hurs eq_refl)).
      cbn [bind].
      rewrite (proj2 (get_dict _ _ "result") (conj Hur eq_refl)). cbn [bind].
      now apply get_dict.
    + now apply get_dict.
    + unfold media_list_of, legacy_of.
      rewrite (proj2 (get_dict post _ "legacy") (conj Hl eq_refl)). cbn [bind].
      rewrite (proj2 (get_dict _ _ "extended_entities") (conj Hee eq_refl)).
      cbn [bind]. exact Hml.
Qed.

Example null_containers_are_not_mappable :
  mappable (JObj bare_tweet) = true /\
  mappable (full_tweet_object true false) = true /\
  mappable null_legacy_tweet = false /\
  mappable (JObj [("__typename", JStr "Tweet"); ("core", JArr [])]) = false /\
  mappable (JObj [("__typename", JStr "Tweet");
                  ("legacy",
                   JObj [("extended_entities", JObj [("media", JNull)])])])
  = false.
Proof. repeat split; reflexivity. Qed.

Lemma mapping_returns_iff_sample :
  exists r, _extract_tweet_data noon (full_tweet_object true false) = Ok r.
Proof.
  apply (proj2 (mapping_returns_iff noon (full_tweet_object true false))).
  reflexivity.
Defined.

(** * Further properties of the orchestration *)











(** * The process: requests and configuration *)

Lemma lookup_update_same (key : string) (value : json)
  (fields : list (string * json)) :
  lookup key (Process.update key value fields) = Some value.
Proof.
  induction fields as [|[k v] fields IH]; cbn [Process.update lookup].
  - now rewrite String.eqb_refl.
  - destruct (String.eqb k key) eqn:Hk; cbn [lookup]; now rewrite Hk.
Qed.

Lemma lookup_update_other (key other : string) (value : json)
  (fields : list (string * json)) :
  other <> key ->
  lookup other (Process.update key value fields) = lookup other fields.
Proof.
  intros Hne. induction fields as [|[k v] fields IH]; cbn [Process.update lookup].
  - destruct (String.eqb key other) eqn:H; [|reflexivity].
    apply String.eqb_eq in H. congruence.
  - destruct (String.eqb k key) eqn:Hk; cbn [lookup].
    + apply String.eqb_eq in Hk. subst k.
      destruct (String.eqb key other) eqn:H; [|reflexivity].
      apply String.eqb_eq in H. congruence.
    + now rewrite IH.
Qed.

Lemma keys_update (key : string) (value : json) (fields : list (string * json)) :
  map fst (Process.update key value fields)
  = if existsb (String.eqb key) (map fst fields) then map fst fields
    else map fst fields ++ [key].
Proof.
  induction fields as [|[k v] fields IH]; cbn [Process.update map fst existsb app].
  - reflexivity.
  - rewrite (String.eqb_sym key k).
    destruct (String.eqb k key) eqn:Hk; cbn [orb map fst]; [reflexivity|].
    rewrite IH. now destruct (existsb (String.eqb key) (map fst fields)).
Qed.

Lemma nodup_update (key : string) (value : json) (fields : list (string * json)) :
  NoDup (map fst fields) -> NoDup (map fst (Process.update key value fields)).
Proof.
  intros H. rewrite keys_update.
  destruct (existsb (String.eqb key) (map fst fields)) eqn:He; [exact H|].
  apply NoDup_app; [exact H | repeat constructor; intros [] |].
  intros k Hk [Heq | []]. subst k.
  assert (existsb (String.eqb key) (map fst fields) = true); [|congruence].
  apply existsb_exists. exists key. split; [exact Hk | apply String.eqb_refl].
Qed.

Lemma request_variables_ok (config : json) (shape : endpoint)
  (tweet_id variables : json) :
  Process.request_variables config shape tweet_id = Ok variables ->
  exists template,
    index config (Process.variables_key shape) = Ok (JObj template) /\
    variables
    = JObj (Process.update (Process.identifier_key shape) tweet_id template).
Proof.
  unfold Process.request_variables. intros H.
  apply bind_ok in H as (template & Ht & H).
  apply bind_ok in H as (copied & Hc & H).
  destruct template; try discriminate Hc; injection Hc as <-;
    [discriminate H|].
  injection H as <-. eauto.
Qed.

(** X12.  The request of a fetch carries the requested identifier under the key of
    its shape ([focalTweetId], [tweetId]), in place of whatever the template
    holds there; every other variable of the template, the features and the
    field toggles go out as configured, and so do the extractor's headers and
    cookies.  A template with distinct keys stays one. *)
Theorem request_carries_identifier (dumps : json -> string)
  (self : Process.extractor) (shape : endpoint) (tweet_id : json)
  (req : Process.request) :
  Process.build_request dumps self shape tweet_id = Ok req ->
  exists template sent features field_toggles,
    index (Process.config self) (Process.variables_key shape) = Ok (JObj template) /\
    Process.variables req = dumps (JObj sent) /\
    lookup (Process.identifier_key shape) sent = Some tweet_id /\
    (forall key, key <> Process.identifier_key shape ->
                 lookup key sent = lookup key template) /\
    (NoDup (map fst template) -> NoDup (map fst sent)) /\
    index (Process.config self) (Process.features_key shape) = Ok features /\
    Process.features req = dumps features /\
    index (Process.config self) (Process.field_toggles_key shape)
    = Ok field_toggles /\
    Process.fieldToggles req = dumps field_toggles /\
    Process.request_headers req = Process.headers self /\
    Process.request_cookies req = Process.cookies self.
Proof.
  unfold Process.build_request. intros H.
  apply bind_ok in H as (endpoints & _ & H).
  apply bind_ok in H as (u & _ & H).
  apply bind_ok in H as (vars & Hvars & H).
  apply bind_ok in H as (features & Hf & H).
  apply bind_ok in H as (toggles & Ht & H).
  injection H as <-.
  apply request_variables_ok in Hvars as (template & Htemplate & ->).
  exists template, (Process.update (Process.identifier_key shape) tweet_id template),
    features, toggles.
  cbn. repeat (split; [assumption || reflexivity|]).
  split; [apply lookup_update_same|].
  split; [intros key Hk; now apply lookup_update_other|].
  split; [apply nodup_update|].
  repeat (split; [assumption || reflexivity|]). reflexivity.
Qed.

Lemma request_carries_identifier_sample :
  exists template sent features field_toggles,
    index sample_config "tweet_detail_variables" = Ok (JObj template) /\
    sample_str (JObj [("focalTweetId", JStr "20"); ("withVoice", JBool true)])
    = sample_str (JObj sent) /\
    lookup "focalTweetId" sent = Some (JStr "20") /\
    (forall key, key <> "focalTweetId" -> lookup key sent = lookup key template) /\
    (NoDup (map fst template) -> NoDup (map fst sent)) /\
    index sample_config "tweet_detail_features" = Ok features /\
    sample_str (JObj [("f", JBool true)]) = sample_str features /\
    index sample_config "tweet_detail_field_toggles" = Ok field_toggles /\
    sample_str (JObj []) = sample_str field_toggles /\
    JObj [("authorization", JStr "Bearer B"); ("x-csrf-token", JStr "C")]
    = Process.headers sample_extractor /\
    JObj [("auth_token", JStr "A"); ("ct0", JStr "C")]
    = Process.cookies sample_extractor.
Proof.
  apply (request_carries_identifier sample_str sample_extractor TweetDetail
           (JStr "20")
           (Process.mk_request (JStr "https://x.test/TweetDetail")
              (JObj [("authorization", JStr "Bearer B");
                     ("x-csrf-token", JStr "C")])
              (JObj [("auth_token", JStr "A"); ("ct0", JStr "C")])
              (sample_str (JObj [("focalTweetId", JStr "20");
                                 ("withVoice", JBool true)]))
              (sample_str (JObj [("f", JBool true)]))
              (sample_str (JObj [])))).
  reflexivity.
Defined.

(** X13.  An extractor that [__init__] returns holds the two tokens of
    [config["auth"]]; the CSRF token is both the [x-csrf-token] header, in
    place of a configured one, and the [ct0] cookie; the other headers are
    the configured ones. *)
Theorem constructor_sets_csrf_everywhere (loaded : option json)
  (output_dir_ok : bool) (self : Process.extractor) :
  Process.__init__ loaded output_dir_ok = Process.Returns self ->
  exists auth configured sent,
    loaded = Some (Process.config self) /\
    output_dir_ok = true /\
    index (Process.config self) "auth" = Ok auth /\
    index auth "auth_token" = Ok (Process.auth_token self) /\
    index auth "csrf_token" = Ok (Process.csrf_token self) /\
    index (Process.config self) "headers" = Ok (JObj configured) /\
    Process.headers self = JObj sent /\
    lookup "x-csrf-token" sent = Some (Process.csrf_token self) /\
    (forall key, key <> "x-csrf-token" -> lookup key sent = lookup key configured) /\
    Process.cookies self
    = JObj [("auth_token", Process.auth_token self);
            ("ct0", Process.csrf_token self)].
Proof.
  unfold Process.__init__. destruct loaded as [config|]; [|discriminate].
  destruct (Process.read_tokens config) as [[auth_token csrf_token]|] eqn:Htok;
    [|discriminate].
  destruct output_dir_ok; [|discriminate].
  destruct (Process._setup_headers config csrf_token auth_token)
    as [[headers cookies]|] eqn:Hh; [|discriminate].
  intros [= <-]. cbn.
  unfold Process.read_tokens in Htok.
  apply bind_ok in Htok as (auth & Hauth & Htok).
  apply bind_ok in Htok as (at' & Hat & Htok).
  apply bind_ok in Htok as (auth' & Hauth' & Htok).
  apply bind_ok in Htok as (ct & Hct & Htok).
  injection Htok as <- <-. rewrite Hauth in Hauth'. injection Hauth' as <-.
  unfold Process._setup_headers in Hh.
  apply bind_ok in Hh as (configured & Hconf & Hh).
  apply bind_ok in Hh as (copied & Hcopy & Hh).
  apply bind_ok in Hh as (sent & Hset & Hh).
  injection Hh as <- <-.
  destruct configured; try discriminate Hcopy; injection Hcopy as <-;
    [discriminate Hset|].
  injection Hset as <-.
  exists auth, fields, (Process.update "x-csrf-token" ct fields).
  repeat (split; [assumption || reflexivity|]).
  split; [apply lookup_update_same|].
  split; [intros key Hk; now apply lookup_update_other | reflexivity].
Qed.

Lemma constructor_sets_csrf_everywhere_sample :
  exists auth configured sent,
    Some sample_config = Some (Process.config sample_extractor) /\
    true = true /\
    index (Process.config sample_extractor) "auth" = Ok auth /\
    index auth "auth_token" = Ok (Process.auth_token sample_extractor) /\
    index auth "csrf_token" = Ok (Process.csrf_token sample_extractor) /\
    index (Process.config sample_extractor) "headers" = Ok (JObj configured) /\
    Process.headers sample_extractor = JObj sent /\
    lookup "x-csrf-token" sent = Some (Process.csrf_token sample_extractor) /\
    (forall key, key <> "x-csrf-token" -> lookup key sent = lookup key configured) /\
    Process.cookies sample_extractor
    = JObj [("auth_token", Process.auth_token sample_extractor);
            ("ct0", Process.csrf_token sample_extractor)].
Proof.
  apply (constructor_sets_csrf_everywhere (Some sample_config) true
           sample_extractor).
  reflexivity.
Defined.

(** * The process: runs *)

(** A process run is the run of the model, cut at its first write that
    fails. *)
Lemma process_run (dumps : json -> string) (send : Process.request -> http_reply)
  (writable : string -> bool) (py_str : json -> string) (now : string)
  (self : Process.extractor) (tweet_id : json) (save_raw save_extracted : bool)
  (trace : list event) (requests : endpoint -> Process.request) :
  (forall shape,
      Process.build_request dumps self shape tweet_id = Ok (requests shape)) ->
  Process.fetch_and_extract dumps send writable py_str now self tweet_id
    save_raw save_extracted trace
  = let (r, events) :=
      fetch_and_extract (fun shape _ => send (requests shape)) now
        (py_str tweet_id) save_raw save_extracted [] in
    let (done, failed) := until_failure writable events in
    (if failed then Process.Crashes Process.OSError else Process.Returns r,
     trace ++ done).
Proof.
  intros Hbuild.
  cbv [Process.fetch_and_extract Process.try_shape Process.fetch Process.bind
       Process.lift Process.emit Process.ret Process.when Process.save_response
       Process.save_extracted_data Process.raw_prefix].
  rewrite !Hbuild.
  cbv [fetch_and_extract try_tweet_detail try_tweet_result
       fetch_tweet_detail fetch_tweet_result io_bind io_ret emit when
       save_response save_extracted_data extract].
  destruct save_raw, save_extracted;
    (destruct (response_json (send (requests TweetDetail))) as [d|];
     [destruct (truthy d); [destruct (extract_from_tweet_detail now d)|]|]);
    try (destruct (response_json (send (requests TweetResultByRestId))) as [d'|];
         [destruct (truthy d'); [destruct (extract_from_tweet_result now d')|]|]);
    cbn [app until_failure write_fails];
    repeat (match goal with
            | |- context [writable ?f] => destruct (writable f) eqn:?
            end;
            cbn [negb app until_failure write_fails fst snd]);
    rewrite <- ?app_assoc; cbn [app]; rewrite ?app_nil_r; reflexivity.
Qed.





Lemma saved_response_off (api_data : option json) (filename : string) :
  saved_response false api_data filename = [].
Proof.
  unfold saved_response. destruct api_data as [d|]; [|reflexivity].
  now rewrite andb_false_r.
Qed.

(** X15.  When the record cannot be written, a live run ends with the uncaught
    [OSError], after its network reads: the record it extracted is lost. *)
Theorem live_write_failure_is_uncaught (dumps : json -> string)
  (send : Process.request -> http_reply) (writable : string -> bool)
  (py_str : json -> string) (now : string) (self : Process.extractor)
  (tweet_id : json) (trace : list event)
  (requests : endpoint -> Process.request) (r : extraction) :
  (forall shape,
      Process.build_request dumps self shape tweet_id = Ok (requests shape)) ->
  fst (fetch_and_extract (fun shape _ => send (requests shape)) now
         (py_str tweet_id) false true []) = Some r ->
  writable ("extracted_" ++ py_str tweet_id ++ ".json")%string = false ->
  Process.fetch_and_extract dumps send writable py_str now self tweet_id
    false true trace
  = (Process.Crashes Process.OSError,
     trace
     ++ gets (snd (fetch_and_extract (fun shape _ => send (requests shape)) now
                     (py_str tweet_id) false true []))).
Proof.
  intros Hbuild Hr Hw.
  rewrite (process_run _ _ _ _ _ _ _ _ _ _ _ Hbuild).
  rewrite fetch_and_extract_run in *. cbv zeta in *. cbn [fst snd] in *.
  rewrite !saved_response_off.
  destruct (outcome (fun shape _ => send (requests shape)) now TweetDetail
              (py_str tweet_id)) as [r'|].
  - injection Hr as ->.
    cbn [app saved_extracted until_failure write_fails gets filter
           is_network_read].
    rewrite Hw. reflexivity.
  - rewrite Hr.
    cbn [app saved_extracted until_failure write_fails gets filter
           is_network_read].
    rewrite Hw. reflexivity.
Qed.

Lemma live_write_failure_is_uncaught_sample :
  Process.fetch_and_extract sample_str
    (answer (result_document (tweet_object "20")))
    (fun filename => negb (String.eqb filename "extracted_20.json"))
    sample_str noon sample_extractor (JStr "20") false true []
  = (Process.Crashes Process.OSError,
     [] ++ gets (snd (fetch_and_extract
                        (fun shape _ =>
                           answer (result_document (tweet_object "20"))
                             (sample_request shape))
                        noon (sample_str (JStr "20")) false true []))).
Proof.
  apply (live_write_failure_is_uncaught sample_str
           (answer (result_document (tweet_object "20")))
           (fun filename => negb (String.eqb filename "extracted_20.json"))
           sample_str noon sample_extractor (JStr "20") [] sample_request
           (mapped noon [("__typename", JStr "Tweet"); ("rest_id", JStr "20")]
              [] [] [] [] [])).
  - intros shape. destruct shape; reflexivity.
  - vm_compute. reflexivity.
  - reflexivity.
Defined.



(** X17.  A configuration from which a request cannot be built is not a failed
    fetch: the exception leaves [fetch_and_extract].  With the primary
    request it does so before any network read; with the secondary request,
    after a primary read that gave no answer, instead of the run returning
    [None]. *)
Theorem misconfiguration_is_uncaught (dumps : json -> string)
  (send : Process.request -> http_reply) (writable : string -> bool)
  (py_str : json -> string) (now : string) (self : Process.extractor)
  (tweet_id : json) (save_raw save_extracted : bool) (trace : list event)
  (e : exn) :
  (Process.build_request dumps self TweetDetail tweet_id = Raise e ->
   Process.fetch_and_extract dumps send writable py_str now self tweet_id
     save_raw save_extracted trace
   = (Process.Crashes (Process.PyError e), trace)) /\
  (forall req,
      Process.build_request dumps self TweetDetail tweet_id = Ok req ->
      response_json (send req) = None ->
      Process.build_request dumps self TweetResultByRestId tweet_id = Raise e ->
      Process.fetch_and_extract dumps send writable py_str now self tweet_id
        save_raw save_extracted trace
      = (Process.Crashes (Process.PyError e),
         trace ++ [EvGet TweetDetail (py_str tweet_id)])).
Proof.
  split.
  - intros H.
    cbv [Process.fetch_and_extract Process.try_shape Process.fetch Process.bind
         Process.lift].
    now rewrite H.
  - intros req Hreq Hnone H.
    cbv [Process.fetch_and_extract Process.try_shape Process.fetch Process.bind
         Process.lift Process.emit Process.ret].
    now rewrite Hreq, Hnone, H.
Qed.

Lemma misconfiguration_is_uncaught_sample :
  Process.fetch_and_extract sample_str (fun _ => ConnectionError) (fun _ => true)
    sample_str noon primary_only_extractor (JStr "20") true true []
  = (Process.Crashes (Process.PyError (KeyError "tweet_result_variables")),
     [] ++ [EvGet TweetDetail (sample_str (JStr "20"))]).
Proof.
  apply (proj2 (misconfiguration_is_uncaught sample_str (fun _ => ConnectionError)
                  (fun _ => true) sample_str noon primary_only_extractor
                  (JStr "20") true true []
                  (KeyError "tweet_result_variables"))
           (Process.mk_request (JStr "https://x.test/TweetDetail")
              (JObj [("x-csrf-token", JStr "C")])
              (JObj [("auth_token", JStr "A"); ("ct0", JStr "C")])
              (sample_str (JObj [("focalTweetId", JStr "20")]))
              (sample_str (JObj [])) (sample_str (JObj []))));
    reflexivity.
Defined.

(** * The process: the command line *)

Lemma written_last_here (trace : list event) (r : extraction) (filename : string) :
  written_last trace (trace ++ [EvSaveExtracted r filename]) r.
Proof. now exists [], filename. Qed.

Lemma written_last_later (trace trace' : list event) (e : event) (r : extraction) :
  written_last (trace ++ [e]) trace' r -> written_last trace trace' r.
Proof.
  intros (earlier & f & ->). exists (e :: earlier), f. now rewrite <- app_assoc.
Qed.

Ltac written :=
  first [ apply written_last_here
        | eapply written_last_later;
          first [ apply written_last_here
                | eapply written_last_later;
                  first [ apply written_last_here
                        | eapply written_last_later;
                          first [ apply written_last_here
                                | eapply written_last_later;
                                  apply written_last_here ] ] ] ].

(** A live run that writes its record and returns it wrote it last. *)
Lemma process_returns_record (dumps : json -> string)
  (send : Process.request -> http_reply) (writable : string -> bool)
  (py_str : json -> string) (now : string) (self : Process.extractor)
  (tweet_id : json) (save_raw : bool) (trace trace' : list event)
  (r : extraction) :
  Process.fetch_and_extract dumps send writable py_str now self tweet_id
    save_raw true trace = (Process.Returns (Some r), trace') ->
  written_last trace trace' r.
Proof.
  cbv [Process.fetch_and_extract Process.try_shape Process.fetch Process.bind
       Process.lift Process.emit Process.ret Process.when Process.save_response
       Process.save_extracted_data Process.raw_prefix extract].
  destruct (Process.build_request dumps self TweetDetail tweet_id) as [req|];
    [|discriminate].
  destruct save_raw;
    (destruct (response_json (send req)) as [d|];
     [destruct (truthy d); [destruct (extract_from_tweet_detail now d)|]|]);
    try (destruct (Process.build_request dumps self TweetResultByRestId tweet_id)
           as [req'|];
         [destruct (response_json (send req')) as [d'|];
          [destruct (truthy d'); [destruct (extract_from_tweet_result now d')|]|]
         |]);
    repeat (match goal with
            | |- context [writable ?f] => destruct (writable f) eqn:?
            end; cbn beta iota);
    try discriminate;
    intros [= <- <-]; written.
Qed.

Lemma offline_returns_record (writable : string -> bool) (now : string)
  (read_json : string -> option json) (input_file output_filename : string)
  (trace trace' : list event) (r : extraction) :
  Process.extract_from_file writable now read_json input_file output_filename
    trace = (Process.Returns (Some r), trace') ->
  written_last trace trace' r.
Proof.
  unfold Process.extract_from_file, Process.save_extracted_data.
  destruct (read_json input_file) as [d|]; [|discriminate].
  destruct (extract_from_tweet_detail now d) as [r'|];
    [|destruct (extract_from_tweet_result now d) as [r'|]];
    try discriminate;
    (destruct (writable output_filename); [|discriminate]);
    intros [= <- <-]; apply written_last_here.
Qed.

Lemma report_returns (fetch_mode : bool) (m : Process.Proc (option extraction))
  (trace trace' : list event) :
  Process.bind m (Process.report fetch_mode) trace = (Process.Returns tt, trace') ->
  exists r,
    m trace = (Process.Returns (Some r), trace') /\
    Process.summary_formats fetch_mode r = true.
Proof.
  unfold Process.bind, Process.report, Process.exit, Process.ret.
  destruct (m trace) as [[[r|]| |] t]; try discriminate.
  destruct (Process.summary_formats fetch_mode r) eqn:Hs; [|discriminate].
  intros [= <-]. eauto.
Qed.

Lemma summary_formats_fields (fetch_mode : bool) (r : extraction) :
  Process.summary_formats fetch_mode r = true ->
  Process.sliceable (TweetInfo.text (tweet r)) = true /\
  Process.comma_formattable (UserInfo.followers_count (user r)) = true.
Proof.
  unfold Process.summary_formats. rewrite !andb_true_iff. tauto.
Qed.

(** X18.  [main] turns down a command line before it reads or writes anything, with
    exit status 1: [extract] with other than two operands (so ["extract"] is
    never taken for a post identifier), [extract] with an input file that does
    not exist, and no operand when the configuration has no usable
    [default_tweet_id]. *)
Theorem main_turns_down_usage_errors (dumps : json -> string)
  (send : Process.request -> http_reply) (writable : string -> bool)
  (py_str : json -> string) (now : string)
  (read_json : string -> option json) (path_exists : string -> bool)
  (argv : list string) (loaded : option json) (output_dir_ok : bool)
  (self : Process.extractor) (trace : list event) :
  Process.__init__ loaded output_dir_ok = Process.Returns self ->
  usage_error path_exists (Process.config self) argv ->
  Process.main dumps send writable py_str now read_json path_exists argv loaded
    output_dir_ok trace
  = (Process.Exits 1, trace).
Proof.
  intros Hinit Husage. unfold Process.main, Process.bind at 1. rewrite Hinit.
  destruct Husage as [prog operands Hlen | prog input output Hmissing
                     | argv default Hlen Hdefault Hfalsy].
  - cbn [String.eqb Ascii.eqb Bool.eqb].
    destruct operands as [|a [|b [|c rest]]]; try reflexivity.
    now destruct Hlen.
  - cbn [String.eqb Ascii.eqb Bool.eqb]. rewrite Hmissing. reflexivity.
  - assert (Hnone : forall A (k : string -> list string -> A) (other : A),
               match argv with
               | _ :: first :: operands => k first operands
               | _ => other
               end = other).
    { intros A k other. destruct argv as [|prog [|first operands]];
        try reflexivity. cbn in Hlen. lia. }
    rewrite Hnone. unfold Process.bind, Process.lift. rewrite Hdefault, Hfalsy.
    reflexivity.
Qed.

Lemma main_turns_down_usage_errors_sample :
  Process.main sample_str (fun _ => ConnectionError) (fun _ => true) sample_str
    noon (fun _ => None) (fun _ => true)
    ["twitter_extractor.py"; "extract"; "tweet_detail_20.json"]
    (Some sample_config) true []
  = (Process.Exits 1, []).
Proof.
  apply (main_turns_down_usage_errors sample_str (fun _ => ConnectionError)
           (fun _ => true) sample_str noon (fun _ => None) (fun _ => true)
           ["twitter_extractor.py"; "extract"; "tweet_detail_20.json"]
           (Some sample_config) true sample_extractor []).
  - reflexivity.
  - apply (wrong_operands _ _ "twitter_extractor.py" ["tweet_detail_20.json"]).
    cbn. lia.
Defined.

(** X19.  [main] comes to its end (exit status 0) only when the constructor
    returned, a record was extracted and written, that write being the last
    event, and the summary lines could be formatted: its text can be sliced
    and its follower count is a number. *)
Theorem main_returns_after_writing (dumps : json -> string)
  (send : Process.request -> http_reply) (writable : string -> bool)
  (py_str : json -> string) (now : string)
  (read_json : string -> option json) (path_exists : string -> bool)
  (argv : list string) (loaded : option json) (output_dir_ok : bool)
  (trace trace' : list event) :
  Process.main dumps send writable py_str now read_json path_exists argv loaded
    output_dir_ok trace
  = (Process.Returns tt, trace') ->
  exists self r,
    Process.__init__ loaded output_dir_ok = Process.Returns self /\
    written_last trace trace' r /\
    Process.sliceable (TweetInfo.text (tweet r)) = true /\
    Process.comma_formattable (UserInfo.followers_count (user r)) = true.
Proof.
  unfold Process.main, Process.bind at 1.
  destruct (Process.__init__ loaded output_dir_ok) as [self| |]; try discriminate.
  intros H.
  assert (Hfetch : forall tweet_id,
             Process.bind
               (Process.fetch_and_extract dumps send writable py_str now self
                  tweet_id true true) (Process.report true) trace
             = (Process.Returns tt, trace') ->
             exists r,
               written_last trace trace' r /\
               Process.sliceable (TweetInfo.text (tweet r)) = true /\
               Process.comma_formattable (UserInfo.followers_count (user r))
               = true).
  { intros tweet_id Hb. apply report_returns in Hb as (r & Hrun & Hs).
    exists r. split; [now apply process_returns_record in Hrun|].
    now apply summary_formats_fields in Hs. }
  assert (Hdefault :
            Process.bind (Process.lift (get (Process.config self)
                                          "default_tweet_id" JNull))
              (fun tweet_id =>
                 if truthy tweet_id
                 then Process.bind
                        (Process.fetch_and_extract dumps send writable py_str now
                           self tweet_id true true) (Process.report true)
                 else Process.exit 1) trace
            = (Process.Returns tt, trace') ->
            exists r,
              written_last trace trace' r /\
              Process.sliceable (TweetInfo.text (tweet r)) = true /\
              Process.comma_formattable (UserInfo.followers_count (user r))
              = true).
  { unfold Process.bind at 1, Process.lift.
    destruct (get (Process.config self) "default_tweet_id" JNull) as [tid|];
      [|discriminate].
    destruct (truthy tid); [apply Hfetch | discriminate]. }
  exists self.
  destruct argv as [|prog [|first operands]].
  - destruct (Hdefault H) as (r & Hr). exists r. auto.
  - destruct (Hdefault H) as (r & Hr). exists r. auto.
  - destruct (String.eqb first "extract").
    + destruct operands as [|input [|output [|extra rest]]]; try discriminate H.
      destruct (path_exists input); [|discriminate H].
      apply report_returns in H as (r & Hrun & Hs).
      exists r. split; [reflexivity|].
      split; [now apply offline_returns_record in Hrun|].
      now apply summary_formats_fields in Hs.
    + destruct (Hfetch _ H) as (r & Hr). exists r. auto.
Qed.

Lemma main_returns_after_writing_sample :
  exists self r,
    Process.__init__ (Some sample_config) true = Process.Returns self /\
    written_last []
      [EvGet TweetDetail "20";
       EvSaveResponse (result_document (tweet_object "20")) "tweet_detail_20.json";
       EvGet TweetResultByRestId "20";
       EvSaveResponse (result_document (tweet_object "20")) "tweet_result_20.json";
       EvSaveExtracted
         (mapped noon [("__typename", JStr "Tweet"); ("rest_id", JStr "20")]
            [] [] [] [] [])
         "extracted_20.json"] r /\
    Process.sliceable (TweetInfo.text (tweet r)) = true /\
    Process.comma_formattable (UserInfo.followers_count (user r)) = true.
Proof.
  apply (main_returns_after_writing sample_str
           (answer (result_document (tweet_object "20"))) (fun _ => true)
           sample_str noon (fun _ => None) (fun _ => true)
           ["twitter_extractor.py"; "20"] (Some sample_config) true []).
  vm_compute. reflexivity.
Defined.

(** A follower count that came as a string: the record is written, and then
    the summary line raises. *)
Example summary_raises_after_writing :
  exists r,
    Process.main sample_str (answer (result_document string_count_tweet))
      (fun _ => true) sample_str noon (fun _ => None) (fun _ => true)
      ["twitter_extractor.py"; "20"] (Some sample_config) true []
    = (Process.Crashes Process.SummaryError,
       [EvGet TweetDetail "20";
        EvSaveResponse (result_document string_count_tweet) "tweet_detail_20.json";
        EvGet TweetResultByRestId "20";
        EvSaveResponse (result_document string_count_tweet) "tweet_result_20.json";
        EvSaveExtracted r "extracted_20.json"]) /\
    UserInfo.followers_count (user r) = JStr "12".
Proof. eexists. split; vm_compute; reflexivity. Qed.
